(** * Regime classification pipeline of [regime_app.py]

    A shallow embedding of the numeric core of the application: the
    rolling statistics ([rolling_mean_nb], [annualized_volatility_nb]),
    the per-bar classifier ([determine_regime_nb]), the pipeline
    ([calculate_regimes_nb]) and the what-if forecast
    ([forecast_next_regime]).

    Data is modelled as the code has it: a NumPy [float64] array is a
    [list float] of IEEE 754 binary64 values (Rocq's primitive floats), an
    [int32] label is a [Z], a window size (a Python [int]) is a [Z]. *)

From Stdlib Require Import ZArith Lia Bool List.
From Stdlib Require Import Floats.
From Stdlib Require Uint63.
From stdpp Require Import base list strings.

#[local] Set Warnings "-inexact-float".

Local Open Scope Z_scope.

(** ** Float comparisons as Python writes them *)

Module F64.

(** [np.isnan] *)
Definition isnan (x : float) : bool := PrimFloat.is_nan x.

(** Python's [a > b] on floats: false as soon as one side is NaN. *)
Definition gt (a b : float) : bool := PrimFloat.ltb b a.

(** Python's [a < b] on floats. *)
Definition lt (a b : float) : bool := PrimFloat.ltb a b.

(** A value that is neither NaN nor an infinity. *)
Definition finite (x : float) : bool := PrimFloat.is_finite x.

End F64.

(** ** Exceptions *)

(** The only exception the modelled code can raise is Python's
    [IndexError] (a position outside a series). *)
Inductive exn : Set := IndexError.

Inductive result (A : Type) : Type :=
| Ok (a : A)
| Raise (e : exn).
Arguments Ok {A} a.
Arguments Raise {A} e.

Definition bind {A B} (r : result A) (k : A -> result B) : result B :=
  match r with
  | Ok a => k a
  | Raise e => Raise e
  end.

Notation "'let*' x ':=' r 'in' k" := (bind r (fun x => k))
  (at level 10, x name, r at level 100, k at level 200).

(** ** NumPy and pandas primitives *)

Module np.

(** Conversion of an array size (a non-negative machine integer below
    [2^63]) to [float64]. *)
Definition float_of_size (n : nat) : float :=
  PrimFloat.of_uint63 (Uint63.of_Z (Z.of_nat n)).

(** [np.mean] of a one-dimensional array, as compiled by Numba: the
    elements are accumulated from left to right, starting from zero,
    and the sum is divided by the size.  On an empty array the formula
    is [0 / 0], NaN in IEEE arithmetic (NumPy's result, with a warning;
    Numba's Python error model may raise [ZeroDivisionError] there
    instead).  An empty window arises only from a window size below 1:
    the theorems on the pipeline assume positive window sizes, so none
    of them depends on this case. *)
Definition sum (a : list float) : float :=
  fold_left PrimFloat.add a 0%float.

Definition mean (a : list float) : float :=
  (sum a / float_of_size (length a))%float.

(** [np.var] with its default [ddof=0]: the mean is computed first, the
    squared deviations from it are accumulated from left to right, and
    their sum is divided by the size. *)
Definition ssd (a : list float) (m : float) : float :=
  fold_left (fun ssd v => let val := (v - m)%float in (ssd + val * val)%float)
            a 0%float.

Definition var (a : list float) : float :=
  let m := mean a in
  (ssd a m / float_of_size (length a))%float.

(** [np.std] with its default [ddof=0]: the square root of [np.var]. *)
Definition std (a : list float) : float := PrimFloat.sqrt (var a).

(** [np.nanmean]: the sum and the count run over the entries that are
    not NaN; the quotient is IEEE division, so an array without any
    such entry gives [0 / 0]. *)
Definition nanmean_loop (a : list float) : float * nat :=
  fold_left (fun '(c, count) v =>
               if F64.isnan v then (c, count) else ((c + v)%float, S count))
            a (0%float, 0%nat).

Definition nanmean (a : list float) : float :=
  let '(c, count) := nanmean_loop a in
  (c / float_of_size count)%float.

(** [np.empty_like]: a fresh array of the same length.  Its cells are
    uninitialised in NumPy; every loop below writes each cell before the
    array is returned, so the initial content is immaterial (see
    [for_range_fill]). *)
Definition empty_like {A B} (a : list A) (junk : B) : list B :=
  replicate (length a) junk.

(** Basic slicing [a[start:stop]] with Python's treatment of negative
    and out-of-range bounds. *)
Definition clamp (len k : Z) : Z :=
  if k <? 0 then Z.max 0 (k + len) else Z.min k len.

Definition slice {A} (a : list A) (start stop : Z) : list A :=
  let len := Z.of_nat (length a) in
  let s := clamp len start in
  let e := clamp len stop in
  take (Z.to_nat (e - s)) (drop (Z.to_nat s) a).

(** [np.sqrt(365)] *)
Definition sqrt365 : float := PrimFloat.sqrt 365%float.

End np.

Module pd.

(** [Series.ffill]: a NaN entry takes the last valid value before it;
    leading NaN entries stay. *)
Fixpoint ffill_from (last : float) (xs : list float) : list float :=
  match xs with
  | [] => []
  | x :: rest =>
      let y := if F64.isnan x then last else x in
      y :: ffill_from y rest
  end.

Definition ffill (xs : list float) : list float := ffill_from nan xs.

(** [Series.shift(1)]: every value moves one position later, the first
    position becomes NaN, the length is kept. *)
Definition shift1 (xs : list float) : list float :=
  take (length xs) (nan :: xs).

(** [Series.pct_change()] with pandas' default arguments
    ([periods=1], [fill_method='pad']): the series is forward-filled,
    then [data / data.shift(1) - 1] is taken element by element. *)
Definition pct_change (xs : list float) : list float :=
  let data := ffill xs in
  zip_with (fun cur prev => (cur / prev - 1)%float) data (shift1 data).

(** [Series.iloc[-1]] *)
Definition iloc_last {A} (xs : list A) : result A :=
  match last xs with
  | Some x => Ok x
  | None => Raise IndexError
  end.

End pd.

(** Reading [a[i]] for a non-negative [i]: outside the array Python
    raises [IndexError].  (Compiled by Numba the read is not checked;
    the callers in this repository always pass series of one length,
    and the theorems assume it.) *)
Definition getitem {A} (a : list A) (i : nat) : result A :=
  match a !! i with
  | Some x => Ok x
  | None => Raise IndexError
  end.

(** ** The program *)

(** [for i in range(n): body], threading the state the body updates. *)
Definition for_range {S} (n : nat) (body : nat -> S -> S) (s : S) : S :=
  fold_left (fun s i => body i s) (seq 0 n) s.

Definition rolling_mean_nb (arr : list float) (window : Z) : list float :=
  let out := np.empty_like arr 0%float in
  for_range (length arr)
    (fun i out =>
       if Z.of_nat i <? window - 1 then
         <[i := nan]> out
       else
         <[i := np.mean (np.slice arr (Z.of_nat i - window + 1) (Z.of_nat i + 1))]> out)
    out.

Definition annualized_volatility_nb (returns : list float) (window : Z) : list float :=
  let out := np.empty_like returns 0%float in
  for_range (length returns)
    (fun i out =>
       if Z.of_nat i <? window - 1 then
         <[i := nan]> out
       else
         <[i := (np.std (np.slice returns (Z.of_nat i - window + 1) (Z.of_nat i + 1))
                 * np.sqrt365)%float]> out)
    out.

(** [a or b or c] and [a and b] of Python evaluate their operands from
    left to right and stop at the first that decides; an operand that is
    not evaluated reads no array cell. *)
Definition or_else (a : result bool) (b : result bool) : result bool :=
  let* x := a in if x then Ok true else b.

Definition and_then (a : result bool) (b : result bool) : result bool :=
  let* x := a in if x then b else Ok false.

Definition determine_regime_nb
    (price ma_short ma_long vol_short : list float) (avg_vol_threshold : float)
    : result (list Z) :=
  let regimes := np.empty_like price 0 in
  let isnan_at a i := let* x := getitem a i in Ok (F64.isnan x) in
  let gt_at a b i := let* x := getitem a i in let* y := getitem b i in Ok (F64.gt x y) in
  let lt_at a b i := let* x := getitem a i in let* y := getitem b i in Ok (F64.lt x y) in
  let above_threshold i := let* v := getitem vol_short i in Ok (F64.gt v avg_vol_threshold) in
  for_range (length price)
    (fun i acc =>
       let* regimes := acc in
       let* unknown :=
         or_else (isnan_at ma_short i) (or_else (isnan_at ma_long i) (isnan_at vol_short i)) in
       if unknown then Ok (<[i := -1]> regimes)
       else
         let* bull := and_then (gt_at price ma_short i) (gt_at price ma_long i) in
         if bull then
           let* above := above_threshold i in
           if above then Ok (<[i := 1]> regimes) else Ok (<[i := 2]> regimes)
         else
           let* bear := and_then (lt_at price ma_short i) (lt_at price ma_long i) in
           if bear then
             let* above := above_threshold i in
             if above then Ok (<[i := 5]> regimes) else Ok (<[i := 6]> regimes)
           else
             let* above := above_threshold i in
             if above then Ok (<[i := 3]> regimes) else Ok (<[i := 4]> regimes))
    (Ok regimes).

Definition calculate_regimes_nb
    (price returns : list float)
    (ma_short_window ma_long_window vol_short_window avg_vol_window : Z)
    : result (list Z) :=
  let ma_short := rolling_mean_nb price ma_short_window in
  let ma_long := rolling_mean_nb price ma_long_window in
  let vol_short := annualized_volatility_nb returns vol_short_window in
  let avg_vol_threshold := np.nanmean (annualized_volatility_nb returns avg_vol_window) in
  let regimes := determine_regime_nb price ma_short ma_long vol_short avg_vol_threshold in
  regimes.

(** [RegimeIndicator.run]: the indicator built by
    [IndicatorFactory(...).from_apply_func(calculate_regimes_nb)] applies
    the function to the price and return columns with the given window
    parameters. *)
Definition RegimeIndicator_run := calculate_regimes_nb.

(** The per-ticker frame of [fetch_and_process_data]: the closing prices
    and the ["Return"] column (the ["Regime"] column is never read by the
    modelled code; the date index plays no part in the computation). *)
Record DataFrame : Type := { Close : list float; Return : list float }.

(** [pd.concat([a, b])] on frames with the same columns. *)
Definition concat (a b : DataFrame) : DataFrame :=
  {| Close := Close a ++ Close b; Return := Return a ++ Return b |}.

(** The body of the per-ticker loop of [fetch_and_process_data], from
    the downloaded closing prices on: the return column is the
    percentage change of the prices and the regimes are computed with
    the fixed windows 21, 88, 21 and 365. *)
Definition fetch_and_process_data_body (close : list float) : result (list Z) :=
  let daily := {| Close := close; Return := pd.pct_change close |} in
  RegimeIndicator_run (Close daily) (Return daily) 21 88 21 365.

Definition forecast_next_regime (daily_data : DataFrame) (hypothetical_change : float)
    : result Z :=
  let* last_price := pd.iloc_last (Close daily_data) in
  let hypothetical_price := (last_price * (1 + hypothetical_change))%float in
  let new_row := {| Close := [hypothetical_price]; Return := [nan] |} in
  let extended_data := concat daily_data new_row in
  let extended_data :=
    {| Close := Close extended_data; Return := pd.pct_change (Close extended_data) |} in
  let* regimes :=
    RegimeIndicator_run (Close extended_data) (Return extended_data) 21 88 21 365 in
  let projected_regime := pd.iloc_last regimes in
  projected_regime.

(** ** Position-wise readings of the program *)

(** The trailing window [arr[i - window + 1 : i + 1]]. *)
Definition window_at (arr : list float) (window : Z) (i : nat) : list float :=
  np.slice arr (Z.of_nat i - window + 1) (Z.of_nat i + 1).

Definition rolling_mean_at (arr : list float) (window : Z) (i : nat) : float :=
  if Z.of_nat i <? window - 1 then nan else np.mean (window_at arr window i).

Definition annualized_volatility_at (returns : list float) (window : Z) (i : nat) : float :=
  if Z.of_nat i <? window - 1 then nan
  else (np.std (window_at returns window i) * np.sqrt365)%float.

(** The cell [a[i]] of a series, for a position inside it. *)
Definition cell (a : list float) (i : nat) : float := default nan (a !! i).

(** The label that one iteration of the loop of [determine_regime_nb]
    writes, as a function of the four values it reads (lines 37 to 53 of
    the source). *)
Definition regime_label (p ms ml vs avg_vol_threshold : float) : Z :=
  if F64.isnan ms || F64.isnan ml || F64.isnan vs then -1
  else if F64.gt p ms && F64.gt p ml then
    if F64.gt vs avg_vol_threshold then 1 else 2
  else if F64.lt p ms && F64.lt p ml then
    if F64.gt vs avg_vol_threshold then 5 else 6
  else
    if F64.gt vs avg_vol_threshold then 3 else 4.

Definition regime_at (price ma_short ma_long vol_short : list float)
    (avg_vol_threshold : float) (i : nat) : Z :=
  regime_label (cell price i) (cell ma_short i) (cell ma_long i) (cell vol_short i)
               avg_vol_threshold.

(** The volatility threshold of one run of the pipeline. *)
Definition avg_vol_threshold_of (returns : list float) (avg_vol_window : Z) : float :=
  np.nanmean (annualized_volatility_nb returns avg_vol_window).

(** The label of position [i] in one run of the pipeline. *)
Definition pipeline_label (price returns : list float)
    (ma_short_window ma_long_window vol_short_window avg_vol_window : Z) (i : nat) : Z :=
  regime_label (cell price i)
               (rolling_mean_at price ma_short_window i)
               (rolling_mean_at price ma_long_window i)
               (annualized_volatility_at returns vol_short_window i)
               (avg_vol_threshold_of returns avg_vol_window).

(** ** The specification's reading of the statistics *)

(** The sample standard deviation as statistics defines it: the squared
    deviations from the mean are summed and divided by [n - 1]; the
    root of the quotient is taken. *)
Definition sample_std (a : list float) : float :=
  PrimFloat.sqrt (np.ssd a (np.mean a) / np.float_of_size (length a - 1))%float.

(** The entries of a series that are not NaN. *)
Definition defined_entries (a : list float) : list float :=
  List.filter (fun x => negb (F64.isnan x)) a.

(** The three statistics read by the classifier are all defined. *)
Definition all_defined (ms ml vs : float) : bool :=
  negb (F64.isnan ms || F64.isnan ml || F64.isnan vs).


(** The three Below-Average-Volatility labels. *)
Definition is_below_avg_vol (r : Z) : Prop := r = 2 \/ r = 4 \/ r = 6.

(** ** Classes of binary64 values *)

(** The result of an operation has the sign [s] and is not NaN. *)
Definition sf_signed (s : bool) (x : spec_float) : Prop :=
  match x with
  | S754_zero s' | S754_infinity s' | S754_finite s' _ _ => s' = s
  | S754_nan => False
  end.

(** Zero or a finite number. *)
Definition sf_finite (x : spec_float) : Prop :=
  match x with
  | S754_zero _ | S754_finite _ _ _ => True
  | _ => False
  end.

(** Zero, a positive number or plus infinity. *)
Definition sf_nonneg (x : spec_float) : Prop :=
  match x with
  | S754_zero _ | S754_finite false _ _ | S754_infinity false => True
  | _ => False
  end.

(** NaN or the infinity of sign [s]. *)
Definition sf_inf_or_nan (s : bool) (x : spec_float) : Prop :=
  x = S754_nan \/ x = S754_infinity s.

(** NaN or an infinity. *)
Definition sf_special (x : spec_float) : Prop :=
  match x with
  | S754_nan | S754_infinity _ => True
  | _ => False
  end.

(** ** Example inputs *)

(** Eight bars rising by one. *)
Definition eight_bars : list float := [1; 2; 3; 4; 5; 6; 7; 8]%float.

(** A frame with the single closing price 3. *)
Definition one_bar_frame : DataFrame := {| Close := [3]%float; Return := [nan] |}.


(** The ramp 100, 101, ..., 499. *)
Definition ramp : list float :=
  (fun i => (100 + np.float_of_size i)%float) <$> seq 0 400.


(** ** The label descriptions *)

(** [regime_descriptions]: a Python dict from the label to its
    description, its items in insertion order. *)
Definition regime_descriptions : list (Z * string) :=
  [ (1, "Above Avg Vol Bull Trend"%string);
    (2, "Below Avg Vol Bull Trend"%string);
    (3, "Above Avg Vol Sideways"%string);
    (4, "Below Avg Vol Sideways"%string);
    (5, "Above Avg Vol Bear Trend"%string);
    (6, "Below Avg Vol Bear Trend"%string) ].

(** [d.get(k)]: the value stored under the key [k], if any. *)
Definition dict_get {V} (d : list (Z * V)) (k : Z) : option V :=
  match List.find (fun kv => fst kv =? k) d with
  | Some kv => Some (snd kv)
  | None => None
  end.

(** The trend half of a label, as the comments of [determine_regime_nb]
    name it. *)
Inductive trend : Set := Unknown | Bull | Sideways | Bear.

Definition trend_of (r : Z) : trend :=
  if (r =? 1) || (r =? 2) then Bull
  else if (r =? 3) || (r =? 4) then Sideways
  else if (r =? 5) || (r =? 6) then Bear
  else Unknown.

(** NaN, or zero, a positive number or plus infinity. *)
Definition sf_nonneg_or_nan (x : spec_float) : Prop :=
  match x with
  | S754_nan | S754_zero _ | S754_finite false _ _ | S754_infinity false => True
  | _ => False
  end.

(** ** IEEE 754 facts *)

Lemma SFcompare_refl_not_nan (x : spec_float) :
  x <> S754_nan -> SFcompare x x = Some Eq.
Proof.
  destruct x as [s|s| |s m e]; intros H; try congruence.
  - reflexivity.
  - destruct s; reflexivity.
  - unfold SFcompare. rewrite Z.compare_refl.
    change (Pos.compare_cont Eq m m) with (Pos.compare m m).
    rewrite Pos.compare_refl. destruct s; reflexivity.
Qed.

Lemma isnan_spec (x : float) : F64.isnan x = true <-> Prim2SF x = S754_nan.
Proof.
  unfold F64.isnan, PrimFloat.is_nan. rewrite FloatAxioms.eqb_spec. unfold SFeqb.
  split.
  - intros H. destruct (Prim2SF x) eqn:E; try reflexivity;
      rewrite SFcompare_refl_not_nan in H by congruence; discriminate.
  - intros ->. reflexivity.
Qed.

Lemma isnan_false_spec (x : float) : F64.isnan x = false <-> Prim2SF x <> S754_nan.
Proof.
  rewrite <- isnan_spec. destruct (F64.isnan x); split; congruence.
Qed.

Lemma isnan_nan : F64.isnan nan = true.
Proof. reflexivity. Qed.

Lemma SFcompare_antisym (x y : spec_float) :
  SFcompare y x = option_map CompOpp (SFcompare x y).
Proof.
  destruct x as [sx|sx| |sx mx ex], y as [sy|sy| |sy my ey];
    try reflexivity;
    try (destruct sx; reflexivity); try (destruct sy; reflexivity);
    try (destruct sx, sy; reflexivity).
  unfold SFcompare, option_map. f_equal.
  rewrite (Z.compare_antisym ex ey).
  destruct sx, sy; try reflexivity;
    destruct (ex ?= ey); simpl; try reflexivity.
  all: pose proof (Pos.compare_cont_antisym mx my Eq) as H; simpl in H;
    change (CompOpp (PosDef.Pos.compare_cont Eq mx my)
            = PosDef.Pos.compare_cont Eq my mx) in H;
    rewrite <- H, ?CompOpp_involutive; reflexivity.
Qed.

(** [x < y] and [y < x] exclude each other. *)
Lemma ltb_asym (x y : float) :
  PrimFloat.ltb x y = true -> PrimFloat.ltb y x = false.
Proof.
  rewrite !ltb_spec. unfold SFltb. rewrite (SFcompare_antisym (Prim2SF x)).
  destruct (SFcompare (Prim2SF x) (Prim2SF y)) as [[]|]; simpl; congruence.
Qed.

(** IEEE equality excludes both strict orders. *)
Lemma eqb_not_ltb (x y : float) :
  PrimFloat.eqb x y = true ->
  PrimFloat.ltb x y = false /\ PrimFloat.ltb y x = false.
Proof.
  rewrite FloatAxioms.eqb_spec, !ltb_spec. unfold SFeqb, SFltb.
  rewrite (SFcompare_antisym (Prim2SF x)).
  destruct (SFcompare (Prim2SF x) (Prim2SF y)) as [[]|]; simpl; intros; split; congruence.
Qed.

(** ** Loops that fill an array *)

Section ForRange.
Context {A S : Type}.
Variable inj : list A -> S.
Variable f : nat -> A.
Variable body : nat -> S -> S.
Variable n : nat.
Hypothesis body_writes :
  forall i o, (i < n)%nat -> body i (inj o) = inj (<[i := f i]> o).

Lemma for_range_prefix (out : list A) (k : nat) :
  length out = n -> (k <= n)%nat ->
  for_range k body (inj out) = inj ((f <$> seq 0 k) ++ drop k out).
Proof.
  intros Hlen. unfold for_range. induction k as [|k IH]; intros Hk.
  - reflexivity.
  - rewrite seq_S, fold_left_app, IH by lia. simpl.
    rewrite body_writes by lia. f_equal.
    assert (Hk' : (k < length out)%nat) by lia.
    destruct (lookup_lt_is_Some_2 out k Hk') as [x Hx].
    rewrite fmap_app, <- app_assoc. simpl.
    rewrite (drop_S out x k Hx).
    rewrite insert_app_r_alt by (rewrite length_fmap, length_seq; lia).
    rewrite length_fmap, length_seq, Nat.sub_diag. reflexivity.
Qed.

Lemma for_range_fill_gen (out : list A) :
  length out = n -> for_range n body (inj out) = inj (f <$> seq 0 n).
Proof.
  intros Hlen. rewrite for_range_prefix by lia.
  rewrite drop_ge by lia. rewrite app_nil_r. reflexivity.
Qed.
End ForRange.

Lemma for_range_fill {A} (f : nat -> A) body n (out : list A) :
  (forall i o, body i o = <[i := f i]> o) ->
  length out = n -> for_range n body out = f <$> seq 0 n.
Proof.
  intros Hb Hlen. apply (for_range_fill_gen (fun l => l) f body n); auto.
Qed.

Lemma tabulate_lookup {A} (f : nat -> A) (n i : nat) :
  (i < n)%nat -> (f <$> seq 0 n) !! i = Some (f i).
Proof.
  intros Hi. rewrite list_lookup_fmap, lookup_seq_lt by lia. reflexivity.
Qed.

(** ** The rolling statistics, position by position *)

Lemma rolling_mean_nb_tabulate arr window :
  rolling_mean_nb arr window = rolling_mean_at arr window <$> seq 0 (length arr).
Proof.
  unfold rolling_mean_nb. apply for_range_fill.
  - intros i o. unfold rolling_mean_at, window_at.
    destruct (Z.of_nat i <? window - 1); reflexivity.
  - unfold np.empty_like. apply length_replicate.
Qed.

Lemma annualized_volatility_nb_tabulate returns window :
  annualized_volatility_nb returns window
  = annualized_volatility_at returns window <$> seq 0 (length returns).
Proof.
  unfold annualized_volatility_nb. apply for_range_fill.
  - intros i o. unfold annualized_volatility_at, window_at.
    destruct (Z.of_nat i <? window - 1); reflexivity.
  - unfold np.empty_like. apply length_replicate.
Qed.

Lemma rolling_mean_nb_length arr window :
  length (rolling_mean_nb arr window) = length arr.
Proof. rewrite rolling_mean_nb_tabulate, length_fmap, length_seq. reflexivity. Qed.

Lemma annualized_volatility_nb_length returns window :
  length (annualized_volatility_nb returns window) = length returns.
Proof. rewrite annualized_volatility_nb_tabulate, length_fmap, length_seq. reflexivity. Qed.

Lemma rolling_mean_nb_lookup arr window i :
  (i < length arr)%nat ->
  rolling_mean_nb arr window !! i = Some (rolling_mean_at arr window i).
Proof. intros Hi. rewrite rolling_mean_nb_tabulate. apply tabulate_lookup, Hi. Qed.

Lemma annualized_volatility_nb_lookup returns window i :
  (i < length returns)%nat ->
  annualized_volatility_nb returns window !! i
  = Some (annualized_volatility_at returns window i).
Proof. intros Hi. rewrite annualized_volatility_nb_tabulate. apply tabulate_lookup, Hi. Qed.

(** ** The classifier and the pipeline, position by position *)

Lemma getitem_cell (a : list float) (i : nat) :
  (i < length a)%nat -> getitem a i = Ok (cell a i).
Proof.
  intros Hi. unfold getitem, cell.
  destruct (lookup_lt_is_Some_2 a i Hi) as [x ->]. reflexivity.
Qed.

Lemma cell_lookup (a : list float) (i : nat) (x : float) :
  a !! i = Some x -> cell a i = x.
Proof. unfold cell. intros ->. reflexivity. Qed.

Lemma determine_regime_nb_tabulate price ma_short ma_long vol_short thr :
  length ma_short = length price ->
  length ma_long = length price ->
  length vol_short = length price ->
  determine_regime_nb price ma_short ma_long vol_short thr
  = Ok (regime_at price ma_short ma_long vol_short thr <$> seq 0 (length price)).
Proof.
  intros Hs Hl Hv. unfold determine_regime_nb.
  apply (for_range_fill_gen Ok).
  - intros i o Hi. cbn [bind]. unfold or_else, and_then.
    rewrite !getitem_cell by lia. cbn [bind].
    unfold regime_at, regime_label.
    destruct (F64.isnan (cell ma_short i)); cbn [orb bind]; [reflexivity|].
    destruct (F64.isnan (cell ma_long i)); cbn [orb bind]; [reflexivity|].
    destruct (F64.isnan (cell vol_short i)); cbn [orb bind]; [reflexivity|].
    destruct (F64.gt (cell price i) (cell ma_short i)); cbn [andb bind];
      [destruct (F64.gt (cell price i) (cell ma_long i)); cbn [andb bind]|];
      try (destruct (F64.gt (cell vol_short i) thr); reflexivity);
      (destruct (F64.lt (cell price i) (cell ma_short i)); cbn [andb bind];
       [destruct (F64.lt (cell price i) (cell ma_long i)); cbn [andb bind]|];
       destruct (F64.gt (cell vol_short i) thr); reflexivity).
  - unfold np.empty_like. apply length_replicate.
Qed.

Lemma calculate_regimes_nb_tabulate price returns w1 w2 w3 w4 :
  length returns = length price ->
  calculate_regimes_nb price returns w1 w2 w3 w4
  = Ok (pipeline_label price returns w1 w2 w3 w4 <$> seq 0 (length price)).
Proof.
  intros Hlen. unfold calculate_regimes_nb.
  rewrite determine_regime_nb_tabulate
    by (rewrite ?rolling_mean_nb_length, ?annualized_volatility_nb_length; lia).
  f_equal. apply list_fmap_ext. intros k i Hk.
  apply lookup_seq in Hk as [Hk Hi]. simpl in Hk. subst k.
  unfold regime_at, pipeline_label, avg_vol_threshold_of.
  rewrite (cell_lookup _ _ _ (rolling_mean_nb_lookup price w1 i Hi)).
  rewrite (cell_lookup _ _ _ (rolling_mean_nb_lookup price w2 i Hi)).
  rewrite (cell_lookup (annualized_volatility_nb returns w3) i _
             (annualized_volatility_nb_lookup returns w3 i ltac:(lia))).
  reflexivity.
Qed.

(** ** NaN propagates through the arithmetic *)

Section NaNPropagation.
Local Open Scope float_scope.

Lemma add_nan_l x y : F64.isnan x = true -> F64.isnan (x + y) = true.
Proof.
  rewrite !isnan_spec, add_spec. intros ->. reflexivity.
Qed.

Lemma add_nan_r x y : F64.isnan y = true -> F64.isnan (x + y) = true.
Proof.
  rewrite !isnan_spec, add_spec. intros ->.
  destruct (Prim2SF x); reflexivity.
Qed.

Lemma sub_nan_l x y : F64.isnan x = true -> F64.isnan (x - y) = true.
Proof.
  rewrite !isnan_spec, sub_spec. intros ->. reflexivity.
Qed.

Lemma sub_nan_r x y : F64.isnan y = true -> F64.isnan (x - y) = true.
Proof.
  rewrite !isnan_spec, sub_spec. intros ->.
  destruct (Prim2SF x); reflexivity.
Qed.

Lemma mul_nan_l x y : F64.isnan x = true -> F64.isnan (x * y) = true.
Proof.
  rewrite !isnan_spec, mul_spec. intros ->. reflexivity.
Qed.

Lemma mul_nan_r x y : F64.isnan y = true -> F64.isnan (x * y) = true.
Proof.
  rewrite !isnan_spec, mul_spec. intros ->.
  destruct (Prim2SF x); reflexivity.
Qed.

Lemma div_nan_l x y : F64.isnan x = true -> F64.isnan (x / y) = true.
Proof.
  rewrite !isnan_spec, div_spec. intros ->. reflexivity.
Qed.

Lemma div_nan_r x y : F64.isnan y = true -> F64.isnan (x / y) = true.
Proof.
  rewrite !isnan_spec, div_spec. intros ->.
  destruct (Prim2SF x); reflexivity.
Qed.

Lemma sqrt_nan x : F64.isnan x = true -> F64.isnan (PrimFloat.sqrt x) = true.
Proof.
  rewrite !isnan_spec, sqrt_spec. intros ->. reflexivity.
Qed.

(** Every ordered comparison with a NaN operand is false. *)
Lemma ltb_nan_l x y : F64.isnan x = true -> (x <? y) = false.
Proof.
  rewrite isnan_spec, ltb_spec. intros ->. reflexivity.
Qed.

Lemma ltb_nan_r x y : F64.isnan y = true -> (x <? y) = false.
Proof.
  rewrite isnan_spec, ltb_spec. intros ->. unfold SFltb.
  destruct (Prim2SF x); reflexivity.
Qed.

Lemma gt_nan_r x y : F64.isnan y = true -> F64.gt x y = false.
Proof. apply ltb_nan_l. Qed.

Lemma gt_nan_l x y : F64.isnan x = true -> F64.gt x y = false.
Proof. apply ltb_nan_r. Qed.

Lemma fold_add_nan (a : list float) (acc : float) :
  F64.isnan acc = true -> F64.isnan (fold_left PrimFloat.add a acc) = true.
Proof.
  revert acc. induction a as [|v a IH]; intros acc H; simpl; [exact H|].
  apply IH, add_nan_l, H.
Qed.

Lemma fold_add_nan_elem (a : list float) (acc x : float) :
  x ∈ a -> F64.isnan x = true ->
  F64.isnan (fold_left PrimFloat.add a acc) = true.
Proof.
  intros Hin Hx. revert acc. induction Hin as [x a|x v a Hin IH]; intros acc; simpl.
  - apply fold_add_nan, add_nan_r, Hx.
  - apply IH, Hx.
Qed.

Lemma sum_nan (a : list float) (x : float) :
  x ∈ a -> F64.isnan x = true -> F64.isnan (np.sum a) = true.
Proof. apply fold_add_nan_elem. Qed.

Lemma mean_nan (a : list float) (x : float) :
  x ∈ a -> F64.isnan x = true -> F64.isnan (np.mean a) = true.
Proof.
  intros Hin Hx. unfold np.mean. apply div_nan_l. eapply sum_nan; eauto.
Qed.

Lemma fold_ssd_nan (a : list float) (m acc : float) :
  F64.isnan acc = true ->
  F64.isnan (fold_left (fun ssd v => let val := v - m in ssd + val * val) a acc) = true.
Proof.
  revert acc. induction a as [|v a IH]; intros acc H; simpl; [exact H|].
  apply IH, add_nan_l, H.
Qed.

Lemma var_nan (a : list float) (x : float) :
  x ∈ a -> F64.isnan x = true -> F64.isnan (np.var a) = true.
Proof.
  intros Hin Hx. unfold np.var. apply div_nan_l.
  pose proof (mean_nan a x Hin Hx) as Hm.
  destruct a as [|v a]; [inversion Hin|]. unfold np.ssd. simpl.
  apply fold_ssd_nan, add_nan_r, mul_nan_l, sub_nan_r, Hm.
Qed.

Lemma std_nan (a : list float) (x : float) :
  x ∈ a -> F64.isnan x = true -> F64.isnan (np.std a) = true.
Proof. intros Hin Hx. apply sqrt_nan. eapply var_nan; eauto. Qed.

End NaNPropagation.

(** ** Trailing windows *)

Lemma window_at_take_drop (arr : list float) (window : Z) (i : nat) :
  1 <= window -> window - 1 <= Z.of_nat i -> (i < length arr)%nat ->
  window_at arr window i
  = take (Z.to_nat window) (drop (i + 1 - Z.to_nat window) arr).
Proof.
  intros Hw Hi Hlen. unfold window_at, np.slice, np.clamp.
  destruct (Z.ltb_spec (Z.of_nat i - window + 1) 0); [lia|].
  destruct (Z.ltb_spec (Z.of_nat i + 1) 0); [lia|].
  rewrite !Z.min_l by lia.
  replace (Z.of_nat i + 1 - (Z.of_nat i - window + 1)) with window by lia.
  replace (Z.to_nat (Z.of_nat i - window + 1)) with (i + 1 - Z.to_nat window)%nat by lia.
  reflexivity.
Qed.

Lemma window_at_length (arr : list float) (window : Z) (i : nat) :
  1 <= window -> window - 1 <= Z.of_nat i -> (i < length arr)%nat ->
  length (window_at arr window i) = Z.to_nat window.
Proof.
  intros Hw Hi Hlen. rewrite window_at_take_drop by assumption.
  rewrite length_take, length_drop. lia.
Qed.

(** The [k]-th value of the window ending at [i] is [arr[i - window + 1 + k]]. *)
Lemma window_at_lookup (arr : list float) (window : Z) (i k : nat) :
  1 <= window -> window - 1 <= Z.of_nat i -> (i < length arr)%nat ->
  (k < Z.to_nat window)%nat ->
  window_at arr window i !! k = arr !! (i + 1 - Z.to_nat window + k)%nat.
Proof.
  intros Hw Hi Hlen Hk. rewrite window_at_take_drop by assumption.
  rewrite lookup_take. destruct (decide (k < Z.to_nat window)%nat); [|lia].
  apply lookup_drop.
Qed.

(** The window ending at [i] holds [arr[j]] for every [j] from
    [i - window + 1] to [i]. *)
Lemma window_at_elem (arr : list float) (window : Z) (i j : nat) (x : float) :
  1 <= window -> window - 1 <= Z.of_nat i -> (i < length arr)%nat ->
  Z.of_nat i - window + 1 <= Z.of_nat j -> (j <= i)%nat ->
  arr !! j = Some x -> x ∈ window_at arr window i.
Proof.
  intros Hw Hi Hlen Hlo Hhi Hx. apply list_elem_of_lookup.
  exists (j - (i + 1 - Z.to_nat window))%nat.
  rewrite window_at_lookup by lia.
  rewrite <- Hx. f_equal. lia.
Qed.

(** ** The classifier *)

(** C1.  At every position the classifier writes Unknown (-1) when one
    of the short average, the long average and the short volatility is
    NaN; otherwise a Bull-Trend label when the price is strictly above
    both averages (1 when the volatility is strictly above the
    threshold, else 2), otherwise a Bear-Trend label when the price is
    strictly below both (5 or 6), and a Sideways label (3 or 4) in every
    remaining case, in particular when the price equals one of the
    averages: the comparisons are the strict IEEE comparisons. *)
Theorem determine_regime_nb_classifies
    (price ma_short ma_long vol_short : list float) (thr : float)
    (i : nat) (p ms ml vs : float) :
  length ma_short = length price ->
  length ma_long = length price ->
  length vol_short = length price ->
  price !! i = Some p -> ma_short !! i = Some ms ->
  ma_long !! i = Some ml -> vol_short !! i = Some vs ->
  exists regimes r,
    determine_regime_nb price ma_short ma_long vol_short thr = Ok regimes /\
    regimes !! i = Some r /\
    (all_defined ms ml vs = false -> r = -1) /\
    (all_defined ms ml vs = true -> F64.gt p ms = true -> F64.gt p ml = true ->
       r = if F64.gt vs thr then 1 else 2) /\
    (all_defined ms ml vs = true -> F64.lt p ms = true -> F64.lt p ml = true ->
       r = if F64.gt vs thr then 5 else 6) /\
    (all_defined ms ml vs = true ->
       F64.gt p ms && F64.gt p ml = false -> F64.lt p ms && F64.lt p ml = false ->
       r = if F64.gt vs thr then 3 else 4) /\
    (all_defined ms ml vs = true ->
       PrimFloat.eqb p ms = true \/ PrimFloat.eqb p ml = true ->
       r = if F64.gt vs thr then 3 else 4).
Proof.
  intros Hs Hl Hv Hp Hms Hml Hvs.
  assert (Hi : (i < length price)%nat) by (eapply lookup_lt_Some; eauto).
  eexists _, _. split; [apply determine_regime_nb_tabulate; assumption|].
  split; [apply tabulate_lookup, Hi|].
  unfold regime_at.
  rewrite (cell_lookup _ _ _ Hp), (cell_lookup _ _ _ Hms),
          (cell_lookup _ _ _ Hml), (cell_lookup _ _ _ Hvs).
  unfold regime_label, all_defined.
  destruct (F64.isnan ms || F64.isnan ml || F64.isnan vs); simpl.
  { repeat split; intros; congruence. }
  split; [congruence|].
  split.
  { intros _ -> ->. reflexivity. }
  split.
  { intros _ H1 H2. rewrite H1, H2.
    unfold F64.lt, F64.gt in *. rewrite (ltb_asym _ _ H1). reflexivity. }
  split.
  { intros _ -> ->. reflexivity. }
  intros _ Heq.
  assert (Hnb : F64.gt p ms && F64.gt p ml = false
                /\ F64.lt p ms && F64.lt p ml = false).
  { unfold F64.gt, F64.lt.
    destruct Heq as [Heq|Heq]; apply eqb_not_ltb in Heq as [H1 H2];
      rewrite H1, H2; rewrite ?andb_false_r; split; reflexivity. }
  destruct Hnb as [-> ->]. reflexivity.
Qed.

(** The position 2 of a three-bar series, with the price equal to the
    short average. *)
Lemma determine_regime_nb_classifies_witness :
  exists regimes r,
    determine_regime_nb [1; 2; 3]%float [nan; 1.5; 3]%float [nan; nan; 2]%float
                        [nan; 0.5; 0.5]%float 0.25%float = Ok regimes /\
    regimes !! 2%nat = Some r /\
    (all_defined 3 2 0.5 = false -> r = -1) /\
    (all_defined 3 2 0.5 = true -> F64.gt 3 3 = true -> F64.gt 3 2 = true ->
       r = if F64.gt 0.5 0.25 then 1 else 2) /\
    (all_defined 3 2 0.5 = true -> F64.lt 3 3 = true -> F64.lt 3 2 = true ->
       r = if F64.gt 0.5 0.25 then 5 else 6) /\
    (all_defined 3 2 0.5 = true ->
       F64.gt 3 3 && F64.gt 3 2 = false -> F64.lt 3 3 && F64.lt 3 2 = false ->
       r = if F64.gt 0.5 0.25 then 3 else 4) /\
    (all_defined 3 2 0.5 = true ->
       PrimFloat.eqb 3 3 = true \/ PrimFloat.eqb 3 2 = true ->
       r = if F64.gt 0.5 0.25 then 3 else 4).
Proof.
  apply (determine_regime_nb_classifies
           [1; 2; 3]%float [nan; 1.5; 3]%float [nan; nan; 2]%float
           [nan; 0.5; 0.5]%float 0.25%float 2 3%float 3%float 2%float 0.5%float);
    reflexivity.
Defined.

(** ** The threshold *)

Lemma nanmean_loop_defined (a : list float) (c : float) (count : nat) :
  fold_left (fun '(c, count) v =>
               if F64.isnan v then (c, count) else ((c + v)%float, S count))
            a (c, count)
  = (fold_left PrimFloat.add (defined_entries a) c,
     (count + length (defined_entries a))%nat).
Proof.
  revert c count. induction a as [|v a IH]; intros c count; simpl.
  - f_equal. lia.
  - destruct (F64.isnan v); simpl; rewrite IH; f_equal; lia.
Qed.

(** [np.nanmean] is the mean of the entries that are not NaN. *)
Lemma nanmean_defined (a : list float) :
  np.nanmean a = np.mean (defined_entries a).
Proof.
  unfold np.nanmean, np.nanmean_loop. rewrite nanmean_loop_defined.
  reflexivity.
Qed.

Lemma defined_entries_all_nan (a : list float) :
  forallb F64.isnan a = true -> defined_entries a = [].
Proof.
  induction a as [|v a IH]; simpl; [reflexivity|].
  intros H. apply andb_true_iff in H as [Hv Ha]. rewrite Hv. simpl. auto.
Qed.

(** ** The percentage change *)

Lemma ffill_from_length (xs : list float) (l : float) :
  length (pd.ffill_from l xs) = length xs.
Proof.
  revert l. induction xs as [|x xs IH]; intros l; simpl; [reflexivity|].
  rewrite IH. reflexivity.
Qed.

Lemma ffill_from_lookup (xs : list float) (l : float) (i : nat) (x : float) :
  xs !! i = Some x -> F64.isnan x = false -> pd.ffill_from l xs !! i = Some x.
Proof.
  revert l i. induction xs as [|y xs IH]; intros l i Hx Hn; [discriminate|].
  destruct i as [|i]; simpl in *.
  - injection Hx as ->. rewrite Hn. reflexivity.
  - apply IH; assumption.
Qed.

Lemma shift1_length (xs : list float) : length (pd.shift1 xs) = length xs.
Proof. unfold pd.shift1. rewrite length_take. simpl. lia. Qed.

Lemma shift1_lookup_succ (xs : list float) (i : nat) :
  (S i < length xs)%nat -> pd.shift1 xs !! S i = xs !! i.
Proof.
  intros Hi. unfold pd.shift1. rewrite lookup_take.
  destruct (decide (S i < length xs)%nat); [reflexivity|lia].
Qed.

Lemma pct_change_length (xs : list float) :
  length (pd.pct_change xs) = length xs.
Proof.
  unfold pd.pct_change, pd.ffill.
  rewrite length_zip_with, shift1_length, ffill_from_length. lia.
Qed.


(** ** The forecast *)

Lemma iloc_last_snoc_tabulate {A} (f : nat -> A) (n : nat) :
  pd.iloc_last (f <$> seq 0 (S n)) = Ok (f n).
Proof.
  unfold pd.iloc_last. rewrite seq_S, fmap_app. simpl.
  rewrite last_snoc. reflexivity.
Qed.

Lemma forecast_next_regime_label (df : DataFrame) (h p : float) :
  last (Close df) = Some p ->
  forecast_next_regime df h
  = Ok (pipeline_label (Close df ++ [(p * (1 + h))%float])
                       (pd.pct_change (Close df ++ [(p * (1 + h))%float]))
                       21 88 21 365 (length (Close df))).
Proof.
  intros Hp. unfold forecast_next_regime, pd.iloc_last at 1. rewrite Hp.
  cbn [bind concat Close Return RegimeIndicator_run].
  unfold RegimeIndicator_run.
  rewrite calculate_regimes_nb_tabulate by apply pct_change_length.
  cbn [bind]. rewrite length_app. simpl length.
  rewrite Nat.add_1_r. apply iloc_last_snoc_tabulate.
Qed.

(** ** The claims on the threshold, the forecast and empty input *)

(** C2.  In every run of the pipeline the volatility threshold is one
    scalar, the same at every position: the mean of the entries that are
    not NaN of the annualized volatility computed over the whole return
    series with the window [avg_vol_window].  The run made by the
    forecast computes it anew from the returns of the extended series. *)
Theorem threshold_is_global_nanmean :
  (forall (price returns : list float) (w1 w2 w3 w4 : Z),
     length returns = length price ->
     0 < w1 -> 0 < w2 -> 0 < w3 -> 0 < w4 ->
     let thr := np.mean (defined_entries (annualized_volatility_nb returns w4)) in
     exists regimes,
       calculate_regimes_nb price returns w1 w2 w3 w4 = Ok regimes /\
       calculate_regimes_nb price returns w1 w2 w3 w4
       = determine_regime_nb price (rolling_mean_nb price w1) (rolling_mean_nb price w2)
                             (annualized_volatility_nb returns w3) thr /\
       length regimes = length price /\
       forall i, (i < length price)%nat ->
         regimes !! i
         = Some (regime_label (cell price i)
                              (rolling_mean_at price w1 i) (rolling_mean_at price w2 i)
                              (annualized_volatility_at returns w3 i) thr)) /\
  (forall (df : DataFrame) (h p : float),
     last (Close df) = Some p ->
     let ext := Close df ++ [(p * (1 + h))%float] in
     let thr := np.mean (defined_entries
                           (annualized_volatility_nb (pd.pct_change ext) 365)) in
     let n := length (Close df) in
     forecast_next_regime df h
     = Ok (regime_label (cell ext n)
                        (rolling_mean_at ext 21 n) (rolling_mean_at ext 88 n)
                        (annualized_volatility_at (pd.pct_change ext) 21 n) thr)).
Proof.
  split.
  - intros price returns w1 w2 w3 w4 Hlen _ _ _ _ thr.
    exists (pipeline_label price returns w1 w2 w3 w4 <$> seq 0 (length price)).
    split; [apply calculate_regimes_nb_tabulate, Hlen|].
    split; [unfold calculate_regimes_nb, thr; rewrite nanmean_defined; reflexivity|].
    split; [rewrite length_fmap, length_seq; reflexivity|].
    intros i Hi. rewrite tabulate_lookup by exact Hi.
    unfold pipeline_label, avg_vol_threshold_of, thr.
    rewrite nanmean_defined. reflexivity.
  - intros df h p Hp ext thr n.
    rewrite (forecast_next_regime_label df h p Hp).
    unfold pipeline_label, avg_vol_threshold_of, thr, ext, n.
    rewrite nanmean_defined. reflexivity.
Qed.

Lemma threshold_is_global_nanmean_witness :
  (exists regimes,
     calculate_regimes_nb eight_bars (pd.pct_change eight_bars) 2 3 2 4 = Ok regimes /\
     length regimes = 8%nat) /\
  forecast_next_regime one_bar_frame 0.1 = Ok (-1).
Proof.
  split.
  - destruct (proj1 threshold_is_global_nanmean
                eight_bars (pd.pct_change eight_bars) 2 3 2 4 eq_refl
                ltac:(lia) ltac:(lia) ltac:(lia) ltac:(lia))
      as (regimes & H1 & _ & H2 & _).
    exists regimes. split; [exact H1|exact H2].
  - rewrite (proj2 threshold_is_global_nanmean one_bar_frame 0.1%float 3%float eq_refl).
    reflexivity.
Defined.




(** C4, as the code has it.  On an empty series the full computation
    raises nothing and returns the empty label sequence, whatever the
    windows; the forecast fails on reading the last price, with Python's
    [IndexError]. *)
Theorem empty_series_behaviour (w1 w2 w3 w4 : Z) (ret : list float) (h : float) :
  calculate_regimes_nb [] [] w1 w2 w3 w4 = Ok [] /\
  fetch_and_process_data_body [] = Ok [] /\
  forecast_next_regime {| Close := []; Return := ret |} h = Raise IndexError.
Proof. repeat split. Qed.

(** C4 as stated fails: the full computation returns a value on the
    empty series. *)
Lemma empty_series_returns_a_value :
  ~ (exists e, calculate_regimes_nb [] [] 21 88 21 365 = Raise e).
Proof. intros [e H]. discriminate H. Qed.

(** ** The annualized volatility *)

(** C5, as the code has it.  For a window [w >= 1] and a position
    [i >= w - 1] the output is the standard deviation of the [w]
    trailing returns ending at [i] with the divisor [w] (NumPy's default
    [ddof=0], the population formula), multiplied by [sqrt(365)]. *)
Theorem annualized_volatility_is_population_std
    (returns : list float) (w : Z) (i : nat) :
  1 <= w -> w - 1 <= Z.of_nat i -> (i < length returns)%nat ->
  let win := take (Z.to_nat w) (drop (i + 1 - Z.to_nat w) returns) in
  length win = Z.to_nat w /\
  annualized_volatility_nb returns w !! i
  = Some (PrimFloat.sqrt (np.ssd win (np.mean win) / np.float_of_size (Z.to_nat w))
          * PrimFloat.sqrt 365)%float.
Proof.
  intros Hw Hi Hlen win.
  assert (Hwin : window_at returns w i = win) by (apply window_at_take_drop; assumption).
  assert (Hl : length win = Z.to_nat w).
  { rewrite <- Hwin. apply window_at_length; assumption. }
  split; [exact Hl|].
  rewrite annualized_volatility_nb_lookup by exact Hlen.
  unfold annualized_volatility_at.
  destruct (Z.ltb_spec (Z.of_nat i) (w - 1)); [lia|].
  rewrite Hwin. unfold np.std, np.var, np.sqrt365. rewrite Hl. reflexivity.
Qed.

Lemma annualized_volatility_is_population_std_witness :
  length (take (Z.to_nat 2) (drop (1 + 1 - Z.to_nat 2) [1; 3]%float)) = Z.to_nat 2 /\
  annualized_volatility_nb [1; 3]%float 2 !! 1%nat
  = Some (PrimFloat.sqrt
            (np.ssd (take (Z.to_nat 2) (drop (1 + 1 - Z.to_nat 2) [1; 3]%float))
                    (np.mean (take (Z.to_nat 2) (drop (1 + 1 - Z.to_nat 2) [1; 3]%float)))
             / np.float_of_size (Z.to_nat 2))
          * PrimFloat.sqrt 365)%float.
Proof.
  apply (annualized_volatility_is_population_std [1; 3]%float 2 1);
    [lia | simpl; lia | simpl; lia].
Defined.

(** C5 as stated fails: on the returns 1 and 3 with the window 2 the
    output is [1 * sqrt(365)], while the sample standard deviation
    (divisor [n - 1]) is [sqrt(2)]. *)
Lemma annualized_volatility_not_sample_std :
  ~ (forall (returns : list float) (w : Z) (i : nat),
       1 <= w -> w - 1 <= Z.of_nat i -> (i < length returns)%nat ->
       annualized_volatility_nb returns w !! i
       = Some (sample_std (window_at returns w i) * np.sqrt365)%float).
Proof.
  intros H.
  specialize (H [1; 3]%float 2 1%nat ltac:(lia) ltac:(simpl; lia) ltac:(simpl; lia)).
  assert (E : PrimFloat.eqb
                (default nan (annualized_volatility_nb [1; 3]%float 2 !! 1%nat))
                (sample_std (window_at [1; 3]%float 2 1) * np.sqrt365)%float = false)
    by reflexivity.
  rewrite H in E. discriminate E.
Qed.

(** ** Window parameters *)




(** ** NaN inputs and a NaN threshold *)

Lemma rolling_mean_at_nan (arr : list float) (w : Z) (i j : nat) (x : float) :
  1 <= w -> (i < length arr)%nat ->
  Z.of_nat i - w + 1 <= Z.of_nat j -> (j <= i)%nat ->
  arr !! j = Some x -> F64.isnan x = true ->
  F64.isnan (rolling_mean_at arr w i) = true.
Proof.
  intros Hw Hlen Hlo Hhi Hx Hn. unfold rolling_mean_at.
  destruct (Z.ltb_spec (Z.of_nat i) (w - 1)); [reflexivity|].
  apply (mean_nan _ x); [|exact Hn].
  eapply window_at_elem; eauto.
Qed.

Lemma annualized_volatility_at_nan (arr : list float) (w : Z) (i j : nat) (x : float) :
  1 <= w -> (i < length arr)%nat ->
  Z.of_nat i - w + 1 <= Z.of_nat j -> (j <= i)%nat ->
  arr !! j = Some x -> F64.isnan x = true ->
  F64.isnan (annualized_volatility_at arr w i) = true.
Proof.
  intros Hw Hlen Hlo Hhi Hx Hn. unfold annualized_volatility_at.
  destruct (Z.ltb_spec (Z.of_nat i) (w - 1)); [reflexivity|].
  apply mul_nan_l, (std_nan _ x); [|exact Hn].
  eapply window_at_elem; eauto.
Qed.

(** A return series no longer than the window, starting with NaN, has
    no defined annualized volatility. *)
Lemma short_returns_no_volatility (returns : list float) (w : Z) (r0 : float) :
  Z.of_nat (length returns) <= w ->
  returns !! 0%nat = Some r0 -> F64.isnan r0 = true ->
  forallb F64.isnan (annualized_volatility_nb returns w) = true.
Proof.
  intros Hw H0 Hn. apply forallb_forall. intros x Hx.
  apply list_elem_of_In, list_elem_of_lookup in Hx as [i Hi].
  assert (Hlt : (i < length returns)%nat).
  { apply lookup_lt_Some in Hi.
    rewrite annualized_volatility_nb_length in Hi. exact Hi. }
  rewrite annualized_volatility_nb_lookup in Hi by exact Hlt.
  injection Hi as <-.
  apply (annualized_volatility_at_nan returns w i 0 r0); try assumption; lia.
Qed.

Lemma regime_label_nan_threshold (p ms ml vs thr : float) :
  F64.isnan thr = true ->
  let r := regime_label p ms ml vs thr in
  (r = -1 \/ is_below_avg_vol r) /\
  (all_defined ms ml vs = true -> is_below_avg_vol r).
Proof.
  intros Hthr. unfold regime_label, all_defined, is_below_avg_vol.
  rewrite (gt_nan_r vs thr Hthr).
  destruct (F64.isnan ms || F64.isnan ml || F64.isnan vs); simpl.
  - split; [left; reflexivity|discriminate].
  - destruct (F64.gt p ms && F64.gt p ml);
      [|destruct (F64.lt p ms && F64.lt p ml)]; split; intros; lia.
Qed.

(** C9.  When the annualized volatility computed with [avg_vol_window]
    has no entry that is not NaN (as happens whenever the return series
    is no longer than that window and starts with NaN), the threshold is
    NaN, no position receives an Above-Average-Volatility label (1, 3 or
    5), and every position where both averages and the short volatility
    are defined receives 2, 4 or 6. *)
Theorem nan_threshold_gives_below_avg_labels
    (price returns : list float) (w1 w2 w3 w4 : Z) :
  length returns = length price ->
  0 < w1 -> 0 < w2 -> 0 < w3 -> 0 < w4 ->
  forallb F64.isnan (annualized_volatility_nb returns w4) = true \/
  (Z.of_nat (length returns) <= w4 /\
   exists r0, returns !! 0%nat = Some r0 /\ F64.isnan r0 = true) ->
  forallb F64.isnan (annualized_volatility_nb returns w4) = true /\
  F64.isnan (np.nanmean (annualized_volatility_nb returns w4)) = true /\
  exists regimes,
    calculate_regimes_nb price returns w1 w2 w3 w4 = Ok regimes /\
    (forall i r, regimes !! i = Some r -> r <> 1 /\ r <> 3 /\ r <> 5) /\
    (forall i, (i < length price)%nat ->
       all_defined (rolling_mean_at price w1 i) (rolling_mean_at price w2 i)
                   (annualized_volatility_at returns w3 i) = true ->
       exists r, regimes !! i = Some r /\ is_below_avg_vol r).
Proof.
  intros Hlen _ _ _ _ Hcase.
  assert (Hall : forallb F64.isnan (annualized_volatility_nb returns w4) = true).
  { destruct Hcase as [H|(Hw & r0 & H0 & Hn)]; [exact H|].
    eapply short_returns_no_volatility; eauto. }
  assert (Hthr : F64.isnan (np.nanmean (annualized_volatility_nb returns w4)) = true).
  { rewrite nanmean_defined, defined_entries_all_nan by exact Hall. reflexivity. }
  split; [exact Hall|]. split; [exact Hthr|].
  eexists. split; [apply calculate_regimes_nb_tabulate, Hlen|].
  split.
  - intros i r Hi.
    assert (Hlt : (i < length price)%nat).
    { apply lookup_lt_Some in Hi. rewrite length_fmap, length_seq in Hi. exact Hi. }
    rewrite tabulate_lookup in Hi by exact Hlt. injection Hi as <-.
    unfold pipeline_label, avg_vol_threshold_of.
    pose proof (regime_label_nan_threshold
                  (cell price i) (rolling_mean_at price w1 i)
                  (rolling_mean_at price w2 i)
                  (annualized_volatility_at returns w3 i) _ Hthr) as [H _].
    unfold is_below_avg_vol in H. simpl in H. lia.
  - intros i Hlt Hdef. eexists. split; [apply tabulate_lookup, Hlt|].
    unfold pipeline_label, avg_vol_threshold_of.
    apply regime_label_nan_threshold; assumption.
Qed.

(** Eight bars with a threshold window of 8: the returns start with NaN
    and are as long as the window. *)
Lemma nan_threshold_gives_below_avg_labels_witness :
  forallb F64.isnan (annualized_volatility_nb (pd.pct_change eight_bars) 8) = true /\
  F64.isnan (np.nanmean (annualized_volatility_nb (pd.pct_change eight_bars) 8)) = true /\
  exists regimes,
    calculate_regimes_nb eight_bars (pd.pct_change eight_bars) 2 3 2 8 = Ok regimes /\
    (forall i r, regimes !! i = Some r -> r <> 1 /\ r <> 3 /\ r <> 5) /\
    (forall i, (i < length eight_bars)%nat ->
       all_defined (rolling_mean_at eight_bars 2 i) (rolling_mean_at eight_bars 3 i)
                   (annualized_volatility_at (pd.pct_change eight_bars) 2 i) = true ->
       exists r, regimes !! i = Some r /\ is_below_avg_vol r).
Proof.
  apply (nan_threshold_gives_below_avg_labels
           eight_bars (pd.pct_change eight_bars) 2 3 2 8);
    [reflexivity | lia | lia | lia | lia |].
  right. split; [simpl; lia|]. exists nan. split; reflexivity.
Defined.

(** C10.  At every position where the price is NaN the label is
    Unknown: the window of the short moving average (of size at least 1)
    ends at that position, the mean of a window holding a NaN is NaN,
    and the classifier tests the averages for NaN before it compares the
    price. *)
Theorem nan_price_is_unknown
    (price returns : list float) (w1 w2 w3 w4 : Z) (i : nat) (p : float) :
  length returns = length price ->
  0 < w1 -> 0 < w2 -> 0 < w3 -> 0 < w4 ->
  price !! i = Some p -> F64.isnan p = true ->
  exists ma_short_i regimes,
    rolling_mean_nb price w1 !! i = Some ma_short_i /\
    F64.isnan ma_short_i = true /\
    calculate_regimes_nb price returns w1 w2 w3 w4 = Ok regimes /\
    regimes !! i = Some (-1).
Proof.
  intros Hlen Hw _ _ _ Hp Hn.
  assert (Hi : (i < length price)%nat) by (eapply lookup_lt_Some; eauto).
  assert (Hma : F64.isnan (rolling_mean_at price w1 i) = true).
  { apply (rolling_mean_at_nan price w1 i i p); try assumption; lia. }
  eexists _, _.
  split; [apply rolling_mean_nb_lookup, Hi|].
  split; [exact Hma|].
  split; [apply calculate_regimes_nb_tabulate, Hlen|].
  rewrite tabulate_lookup by exact Hi. f_equal.
  unfold pipeline_label, regime_label. rewrite Hma. reflexivity.
Qed.

Lemma nan_price_is_unknown_witness :
  exists ma_short_i regimes,
    rolling_mean_nb [1; 2; nan; 4; 5]%float 2 !! 2%nat = Some ma_short_i /\
    F64.isnan ma_short_i = true /\
    calculate_regimes_nb [1; 2; nan; 4; 5]%float [nan; 1; nan; nan; 0.25]%float 2 3 2 4
    = Ok regimes /\
    regimes !! 2%nat = Some (-1).
Proof.
  apply (nan_price_is_unknown [1; 2; nan; 4; 5]%float [nan; 1; nan; nan; 0.25]%float
           2 3 2 4 2 nan);
    [reflexivity | lia | lia | lia | lia | reflexivity | reflexivity].
Defined.

(** ** Rounding never produces NaN *)

Section Rounding.
Variables prec emax : Z.

Lemma shr_1_nonneg (mrs : shr_record) : 0 <= shr_m mrs -> 0 <= shr_m (shr_1 mrs).
Proof.
  destruct mrs as [m r s]. destruct m as [|p|p]; simpl; intros H; try lia;
    destruct p; simpl; lia.
Qed.

Lemma iter_pos_invariant {A} (P : A -> Prop) (f : A -> A) :
  (forall x, P x -> P (f x)) -> forall n x, P x -> P (SpecFloat.iter_pos f n x).
Proof.
  intros Hf. induction n as [n IH|n IH|]; intros x Hx; simpl; auto.
Qed.

Lemma shr_nonneg (mrs : shr_record) (e n : Z) :
  0 <= shr_m mrs -> 0 <= shr_m (fst (shr mrs e n)).
Proof.
  intros H. destruct n as [|p|p]; simpl; try exact H.
  apply (iter_pos_invariant (fun r => 0 <= shr_m r)); [apply shr_1_nonneg|exact H].
Qed.

Lemma shr_fexp_nonneg (m e : Z) (l : location) :
  0 <= m -> 0 <= shr_m (fst (shr_fexp prec emax m e l)).
Proof.
  intros H. unfold shr_fexp. apply shr_nonneg.
  destruct l as [|[]]; exact H.
Qed.

Lemma round_nearest_even_nonneg (m : Z) (l : location) :
  0 <= m -> 0 <= round_nearest_even m l.
Proof.
  intros H. destruct l as [|[]]; simpl; try lia. destruct (Z.even m); lia.
Qed.

Lemma binary_round_aux_signed (sx : bool) (mx ex : Z) (lx : location) :
  0 <= mx -> sf_signed sx (binary_round_aux prec emax sx mx ex lx).
Proof.
  intros H. unfold binary_round_aux.
  pose proof (shr_fexp_nonneg mx ex lx H) as H1.
  destruct (shr_fexp prec emax mx ex lx) as [mrs' e']. simpl in H1.
  pose proof (shr_fexp_nonneg _ e' loc_Exact
                (round_nearest_even_nonneg _ (loc_of_shr_record mrs') H1)) as H2.
  destruct (shr_fexp prec emax _ e' loc_Exact) as [mrs'' e'']. simpl in H2.
  destruct (shr_m mrs'') as [|p|p]; simpl; try reflexivity; try lia.
  destruct (e'' <=? emax - prec); reflexivity.
Qed.

Lemma binary_round_signed (sx : bool) (mx : positive) (ex : Z) :
  sf_signed sx (binary_round prec emax sx mx ex).
Proof.
  unfold binary_round. destruct (shl_align mx ex _) as [mz ez].
  apply binary_round_aux_signed. lia.
Qed.

Lemma binary_normalize_not_nan (m e : Z) (s : bool) :
  binary_normalize prec emax m e s <> S754_nan.
Proof.
  destruct m as [|p|p]; simpl; [discriminate| |].
  - pose proof (binary_round_signed false p e) as H.
    destruct (binary_round prec emax false p e); simpl in H; congruence.
  - pose proof (binary_round_signed true p e) as H.
    destruct (binary_round prec emax true p e); simpl in H; congruence.
Qed.

Lemma binary_normalize_pos_signed (m : positive) (e : Z) (s : bool) :
  sf_signed false (binary_normalize prec emax (Zpos m) e s).
Proof. apply binary_round_signed. Qed.

Lemma sf_signed_not_nan s x : sf_signed s x -> x <> S754_nan.
Proof. destruct x; simpl; congruence. Qed.

Lemma sf_signed_nonneg x : sf_signed false x -> sf_nonneg x.
Proof. destruct x as [s|s| |s m e]; simpl; intros H; subst; auto. Qed.

Lemma sf_nonneg_not_nan x : sf_nonneg x -> x <> S754_nan.
Proof. destruct x; simpl; congruence. Qed.

Lemma SFadd_finite_not_nan (x y : spec_float) :
  x <> S754_nan -> sf_finite y -> SFadd prec emax x y <> S754_nan.
Proof.
  intros Hx Hy.
  destruct x as [sx|sx| |sx mx ex], y as [sy|sy| |sy my ey];
    simpl in *; try congruence; try contradiction;
    try (destruct sx, sy; simpl; congruence).
  apply binary_normalize_not_nan.
Qed.

Lemma SFsub_finite_not_nan (x y : spec_float) :
  sf_finite x -> y <> S754_nan -> SFsub prec emax x y <> S754_nan.
Proof.
  intros Hx Hy.
  destruct x as [sx|sx| |sx mx ex], y as [sy|sy| |sy my ey];
    simpl in *; try congruence; try contradiction;
    try (destruct sx, sy; simpl; congruence).
  apply binary_normalize_not_nan.
Qed.

Lemma SFmul_self_nonneg (x : spec_float) :
  x <> S754_nan -> sf_nonneg (SFmul prec emax x x).
Proof.
  intros Hx. destruct x as [sx|sx| |sx mx ex]; simpl; try congruence;
    try (destruct sx; exact I).
  apply sf_signed_nonneg.
  replace (xorb sx sx) with false by (destruct sx; reflexivity).
  apply binary_round_aux_signed. lia.
Qed.

Lemma SFadd_nonneg (x y : spec_float) :
  sf_nonneg x -> sf_nonneg y -> sf_nonneg (SFadd prec emax x y).
Proof.
  intros Hx Hy.
  destruct x as [sx|[]| |[] mx ex], y as [sy|[]| |[] my ey];
    simpl in *; try contradiction; try exact I;
    try (destruct sx, sy; exact I).
  apply sf_signed_nonneg.
  change (sf_signed false
            (binary_normalize prec emax
               (Zpos (fst (shl_align mx ex (Z.min ex ey))
                      + fst (shl_align my ey (Z.min ex ey)))) (Z.min ex ey) false)).
  apply binary_normalize_pos_signed.
Qed.

Lemma SFdiv_core_binary_nonneg (m1 : positive) (e1 : Z) (m2 : positive) (e2 : Z) :
  0 <= fst (fst (SFdiv_core_binary prec emax (Zpos m1) e1 (Zpos m2) e2)).
Proof.
  unfold SFdiv_core_binary.
  set (s := _ - _ - Z.min _ _).
  set (m' := match s with Z0 => _ | Zpos _ => _ | Zneg _ => _ end).
  assert (Hm : 0 <= m').
  { unfold m'. destruct s; try lia. apply Z.shiftl_nonneg. lia. }
  pose proof (Z.div_pos m' (Zpos m2) Hm ltac:(lia)) as Hq.
  unfold Z.div in Hq. destruct (Z.div_eucl m' (Zpos m2)) as [q r]. exact Hq.
Qed.

Lemma SFdiv_not_nan (x y : spec_float) (sy : bool) (my : positive) (ey : Z) :
  x <> S754_nan -> y = S754_finite sy my ey -> SFdiv prec emax x y <> S754_nan.
Proof.
  intros Hx ->. destruct x as [sx|sx| |sx mx ex]; simpl; try congruence.
  pose proof (SFdiv_core_binary_nonneg mx ex my ey) as H.
  destruct (SFdiv_core_binary prec emax (Zpos mx) ex (Zpos my) ey) as [[mz ez] lz].
  simpl in H. eapply sf_signed_not_nan, binary_round_aux_signed, H.
Qed.

Lemma SFdiv_nonneg (x y : spec_float) (my : positive) (ey : Z) :
  sf_nonneg x -> y = S754_finite false my ey -> sf_nonneg (SFdiv prec emax x y).
Proof.
  intros Hx ->. destruct x as [sx|[]| |[] mx ex]; simpl in *; try contradiction;
    try exact I.
  pose proof (SFdiv_core_binary_nonneg mx ex my ey) as H.
  destruct (SFdiv_core_binary prec emax (Zpos mx) ex (Zpos my) ey) as [[mz ez] lz].
  simpl in H. apply sf_signed_nonneg, binary_round_aux_signed, H.
Qed.

Lemma SFsqrt_core_binary_nonneg (m : positive) (e : Z) :
  0 <= fst (fst (SFsqrt_core_binary prec emax (Zpos m) e)).
Proof.
  unfold SFsqrt_core_binary.
  set (s := e - _).
  set (m' := match s with Z0 => _ | Zpos _ => _ | Zneg _ => _ end).
  assert (Hm : 0 <= m').
  { unfold m'. destruct s; try lia. apply Z.shiftl_nonneg. lia. }
  pose proof (Z.sqrtrem_spec m' Hm) as Hq.
  destruct (Z.sqrtrem m') as [q r]. simpl. lia.
Qed.

Lemma SFsqrt_nonneg (x : spec_float) :
  sf_nonneg x -> sf_nonneg (SFsqrt prec emax x).
Proof.
  intros Hx. destruct x as [sx|[]| |[] mx ex]; simpl in *; try contradiction;
    try exact I.
  pose proof (SFsqrt_core_binary_nonneg mx ex) as H.
  destruct (SFsqrt_core_binary prec emax (Zpos mx) ex) as [[mz ez] lz].
  simpl in H. apply sf_signed_nonneg, binary_round_aux_signed, H.
Qed.

Lemma SFmul_finite_not_nan (x y : spec_float) (sy : bool) (my : positive) (ey : Z) :
  x <> S754_nan -> y = S754_finite sy my ey -> SFmul prec emax x y <> S754_nan.
Proof.
  intros Hx ->. destruct x as [sx|sx| |sx mx ex]; simpl; try congruence.
  eapply sf_signed_not_nan, binary_round_aux_signed. lia.
Qed.

End Rounding.

(** ** Rounding in the normal range gives a finite number *)

Lemma digits2_pos_size (p : positive) : digits2_pos p = Pos.size p.
Proof. induction p as [p IH|p IH|]; simpl; congruence. Qed.

Lemma Zdigits2_log2 (m : Z) : 0 < m -> Zdigits2 m = Z.log2 m + 1.
Proof.
  destruct m as [|p|p]; try lia. intros _. simpl.
  rewrite digits2_pos_size. destruct p; simpl; lia.
Qed.

Lemma shr_1_div2 (mrs : shr_record) :
  0 <= shr_m mrs -> shr_m (shr_1 mrs) = shr_m mrs / 2.
Proof.
  destruct mrs as [m r s]. simpl. intros H. rewrite <- Z.div2_div.
  destruct m as [|p|p]; try lia; [reflexivity|destruct p; reflexivity].
Qed.

Lemma pow2_xO (n : positive) : 2 ^ Zpos n~0 = 2 ^ Zpos n * 2 ^ Zpos n.
Proof. rewrite <- Z.pow_add_r by lia. f_equal. lia. Qed.

Lemma pow2_xI (n : positive) : 2 ^ Zpos n~1 = 2 * (2 ^ Zpos n * 2 ^ Zpos n).
Proof.
  rewrite <- Z.pow_add_r, <- Z.pow_succ_r by lia. f_equal. lia.
Qed.

Lemma shr_iter_nonneg (n : positive) (mrs : shr_record) :
  0 <= shr_m mrs -> 0 <= shr_m (SpecFloat.iter_pos shr_1 n mrs).
Proof.
  revert mrs. induction n as [n IH|n IH|]; intros mrs H; cbn [SpecFloat.iter_pos].
  - apply IH, IH. rewrite shr_1_div2 by exact H. apply Z.div_pos; lia.
  - apply IH, IH, H.
  - rewrite shr_1_div2 by exact H. apply Z.div_pos; lia.
Qed.

Lemma shr_m_iter (n : positive) (mrs : shr_record) :
  0 <= shr_m mrs ->
  shr_m (SpecFloat.iter_pos shr_1 n mrs) = shr_m mrs / 2 ^ Zpos n.
Proof.
  revert mrs. induction n as [n IH|n IH|]; intros mrs H; cbn [SpecFloat.iter_pos].
  - assert (H1 : 0 <= shr_m (shr_1 mrs))
      by (rewrite shr_1_div2 by exact H; apply Z.div_pos; lia).
    rewrite IH by (apply shr_iter_nonneg, H1). rewrite IH by exact H1.
    rewrite shr_1_div2 by exact H.
    assert (0 < 2 ^ Zpos n) by (apply Z.pow_pos_nonneg; lia).
    rewrite pow2_xI, !Z.div_div by lia. reflexivity.
  - rewrite IH by (apply shr_iter_nonneg, H). rewrite IH by exact H.
    assert (0 < 2 ^ Zpos n) by (apply Z.pow_pos_nonneg; lia).
    rewrite pow2_xO, !Z.div_div by lia. reflexivity.
  - rewrite shr_1_div2 by exact H. reflexivity.
Qed.

Lemma shr_fexp_spec (prec emax m e : Z) (l : location) :
  0 <= m ->
  let n := Z.max 0 (fexp prec emax (Zdigits2 m + e) - e) in
  shr_m (fst (shr_fexp prec emax m e l)) = m / 2 ^ n /\
  snd (shr_fexp prec emax m e l) = e + n.
Proof.
  intros H n. unfold shr_fexp, shr. fold (fexp prec emax (Zdigits2 m + e)).
  assert (Hm : shr_m (shr_record_of_loc m l) = m) by (destruct l as [|[]]; reflexivity).
  subst n. destruct (fexp prec emax (Zdigits2 m + e) - e) as [|p|p]; simpl.
  - rewrite Hm, Z.div_1_r. lia.
  - rewrite shr_m_iter by lia. rewrite Hm. split; [reflexivity|lia].
  - rewrite Hm, Z.div_1_r. lia.
Qed.

Lemma log2_div_pow2 (m k : Z) :
  0 < m -> 0 <= k <= Z.log2 m ->
  0 < m / 2 ^ k /\ Z.log2 (m / 2 ^ k) = Z.log2 m - k.
Proof.
  intros Hm Hk.
  rewrite <- Z.shiftr_div_pow2 by lia.
  rewrite Z.log2_shiftr by lia.
  split; [|lia].
  rewrite Z.shiftr_div_pow2 by lia.
  pose proof (Z.log2_spec m Hm) as [Hlo _].
  apply Z.div_str_pos. split; [apply Z.pow_pos_nonneg; lia|].
  etransitivity; [|exact Hlo]. apply Z.pow_le_mono_r; lia.
Qed.

Lemma round_nearest_even_cases (m : Z) (l : location) :
  round_nearest_even m l = m \/ round_nearest_even m l = m + 1.
Proof.
  destruct l as [|[]]; simpl; auto. destruct (Z.even m); auto.
Qed.

Lemma log2_succ_le (m : Z) : 0 < m -> Z.log2 m <= Z.log2 (m + 1) <= Z.log2 m + 1.
Proof.
  intros Hm. split; [apply Z.log2_le_mono; lia|].
  pose proof (Z.log2_spec m Hm) as [_ Hhi].
  assert (H : Z.log2 (m + 1) < Z.succ (Z.succ (Z.log2 m))).
  { apply Z.log2_lt_pow2; [lia|].
    pose proof (Z.log2_nonneg m).
    rewrite (Z.pow_succ_r 2 (Z.succ (Z.log2 m))) by lia. lia. }
  lia.
Qed.

(** In the normal range, without overflow, rounding a positive
    mantissa gives a finite non-zero number. *)
Lemma binary_round_aux_finite (sx : bool) (mx ex : Z) (lx : location) :
  0 < mx ->
  -1021 <= Zdigits2 mx + ex ->
  ex + Z.max 0 (Zdigits2 mx - 53) + 1 <= 971 ->
  exists m e, binary_round_aux 53 1024 sx mx ex lx = S754_finite sx m e.
Proof.
  intros Hm Hlo Hhi. unfold binary_round_aux.
  rewrite Zdigits2_log2 in Hlo, Hhi by exact Hm.
  pose proof (Z.log2_nonneg mx) as Hl0.
  pose proof (shr_fexp_spec 53 1024 mx ex lx ltac:(lia)) as [H1m H1e].
  destruct (shr_fexp 53 1024 mx ex lx) as [mrs' e']. simpl in H1m, H1e.
  rewrite Zdigits2_log2 in H1m, H1e by exact Hm.
  unfold fexp, emin in H1m, H1e.
  set (k1 := Z.max 0 (Z.max (Z.log2 mx + 1 + ex - 53) (3 - 1024 - 53) - ex)) in *.
  assert (Hk1 : k1 = Z.max 0 (Z.log2 mx + 1 - 53)) by lia.
  destruct (log2_div_pow2 mx k1 Hm ltac:(lia)) as [Hm1 Hd1].
  rewrite <- H1m in Hm1, Hd1.
  set (m2 := round_nearest_even (shr_m mrs') (loc_of_shr_record mrs')).
  assert (Hm2 : 0 < m2 /\ Z.log2 (shr_m mrs') <= Z.log2 m2 <= Z.log2 (shr_m mrs') + 1).
  { destruct (round_nearest_even_cases (shr_m mrs') (loc_of_shr_record mrs')) as [E|E];
      fold m2 in E; rewrite E; [lia|].
    split; [lia|]. apply log2_succ_le, Hm1. }
  destruct Hm2 as [Hm2 Hd2].
  pose proof (shr_fexp_spec 53 1024 m2 e' loc_Exact ltac:(lia)) as [H2m H2e].
  destruct (shr_fexp 53 1024 m2 e' loc_Exact) as [mrs'' e'']. simpl in H2m, H2e.
  rewrite Zdigits2_log2 in H2m, H2e by exact Hm2.
  unfold fexp, emin in H2m, H2e.
  set (k2 := Z.max 0 (Z.max (Z.log2 m2 + 1 + e' - 53) (3 - 1024 - 53) - e')) in *.
  assert (Hk2 : k2 = Z.max 0 (Z.log2 m2 + 1 - 53)) by lia.
  pose proof (Z.log2_nonneg m2) as Hl2.
  destruct (log2_div_pow2 m2 k2 Hm2 ltac:(lia)) as [Hm3 _].
  rewrite <- H2m in Hm3.
  destruct (shr_m mrs'') as [|p|p]; try lia.
  destruct (Z.leb_spec e'' (1024 - 53)); [eauto|lia].
Qed.

Lemma iter_xO_pow2 (p d : positive) :
  Zpos (Pos.iter xO p d) = Zpos p * 2 ^ Zpos d.
Proof.
  induction d as [|d IH] using Pos.peano_ind.
  - simpl. lia.
  - rewrite Pos.iter_succ, Pos2Z.inj_xO, IH, Pos2Z.inj_succ, Z.pow_succ_r by lia. lia.
Qed.

Lemma shl_align_spec (p : positive) (ex ex' : Z) :
  Zpos (fst (shl_align p ex ex')) = Zpos p * 2 ^ (ex - Z.min ex ex') /\
  snd (shl_align p ex ex') = Z.min ex ex'.
Proof.
  unfold shl_align. destruct (ex' - ex) as [|d|d] eqn:E; simpl.
  - rewrite Z.min_l by lia. rewrite Z.sub_diag. simpl. lia.
  - rewrite Z.min_l by lia. rewrite Z.sub_diag. simpl. lia.
  - rewrite Z.min_r by lia. rewrite iter_xO_pow2.
    replace (ex - ex') with (Zpos d) by lia. lia.
Qed.

(** A size between 1 and [2^63 - 1] converts to a positive finite
    number. *)
Lemma float_of_size_finite (n : nat) :
  (0 < n)%nat -> Z.of_nat n < 2 ^ 63 ->
  exists m e, Prim2SF (np.float_of_size n) = S754_finite false m e.
Proof.
  intros Hn Hb. unfold np.float_of_size.
  rewrite of_uint63_spec, Uint63.of_Z_spec.
  rewrite Z.mod_small by (change Uint63.wB with (2 ^ 63); lia).
  destruct (Z.of_nat n) as [|p|p] eqn:E; try lia.
  unfold binary_normalize, binary_round.
  pose proof (shl_align_spec p 0 (fexp prec emax (Zpos (digits2_pos p) + 0)))
    as [Hmz Hez].
  destruct (shl_align p 0 _) as [mz ez]. simpl in Hmz, Hez.
  rewrite <- Hez in Hmz.
  change (Zpos (digits2_pos p)) with (Zdigits2 (Zpos p)) in Hez.
  rewrite Zdigits2_log2 in Hez by lia.
  assert (Hlog : 0 <= Z.log2 (Zpos p) < 63).
  { split; [apply Z.log2_nonneg|]. apply Z.log2_lt_pow2; lia. }
  unfold fexp, emin, prec, emax in Hez.
  assert (Hez' : ez = Z.min 0 (Z.log2 (Zpos p) + 1 - 53)) by lia.
  assert (Hd : Z.log2 (Zpos mz) = Z.log2 (Zpos p) - ez).
  { rewrite Hmz. rewrite Z.log2_mul_pow2 by lia. lia. }
  apply binary_round_aux_finite; [lia| |];
    rewrite Zdigits2_log2 by lia; lia.
Qed.

(** ** Finite windows have defined statistics *)

Lemma finite_spec (x : float) : F64.finite x = true -> sf_finite (Prim2SF x).
Proof.
  unfold F64.finite, PrimFloat.is_finite, PrimFloat.is_infinity.
  rewrite negb_true_iff, orb_false_iff. intros [Hn Hi].
  apply isnan_false_spec in Hn.
  rewrite FloatAxioms.eqb_spec, abs_spec in Hi.
  change (Prim2SF infinity) with (S754_infinity false) in Hi.
  destruct (Prim2SF x) as [s|s| |s m e]; simpl in *; try exact I;
    [discriminate Hi|congruence].
Qed.

Lemma finite_not_nan (x : float) : F64.finite x = true -> F64.isnan x = false.
Proof.
  intros H. apply isnan_false_spec. apply finite_spec in H.
  destruct (Prim2SF x); simpl in H; congruence.
Qed.

Lemma sqrt365_finite : exists m e, Prim2SF np.sqrt365 = S754_finite false m e.
Proof. eexists _, _. vm_compute. reflexivity. Qed.

Section FiniteWindows.
Local Open Scope float_scope.

Lemma add_finite_defined (x y : float) :
  F64.isnan x = false -> F64.finite y = true -> F64.isnan (x + y) = false.
Proof.
  rewrite !isnan_false_spec, add_spec. intros Hx Hy.
  apply SFadd_finite_not_nan; [exact Hx|apply finite_spec, Hy].
Qed.

Lemma fold_add_defined (a : list float) (acc : float) :
  forallb F64.finite a = true -> F64.isnan acc = false ->
  F64.isnan (fold_left PrimFloat.add a acc) = false.
Proof.
  revert acc. induction a as [|v a IH]; intros acc Ha Hacc; simpl; [exact Hacc|].
  simpl in Ha. apply andb_true_iff in Ha as [Hv Ha].
  apply IH; [exact Ha|]. apply add_finite_defined; assumption.
Qed.

Lemma mean_defined (a : list float) :
  forallb F64.finite a = true ->
  (0 < length a)%nat -> (Z.of_nat (length a) < 2 ^ 63)%Z ->
  F64.isnan (np.mean a) = false.
Proof.
  intros Ha Hn Hb. unfold np.mean.
  destruct (float_of_size_finite (length a) Hn Hb) as (m & e & Hsz).
  pose proof (fold_add_defined a 0 Ha eq_refl) as Hs.
  rewrite isnan_false_spec in *. rewrite div_spec.
  eapply SFdiv_not_nan; [exact Hs|exact Hsz].
Qed.

Lemma fold_ssd_nonneg (a : list float) (m acc : float) :
  forallb F64.finite a = true -> F64.isnan m = false ->
  sf_nonneg (Prim2SF acc) ->
  sf_nonneg (Prim2SF (fold_left (fun ssd v => let val := v - m in ssd + val * val)
                                a acc)).
Proof.
  revert acc. induction a as [|v a IH]; intros acc Ha Hm Hacc; simpl; [exact Hacc|].
  simpl in Ha. apply andb_true_iff in Ha as [Hv Ha].
  apply IH; [exact Ha|exact Hm|].
  rewrite add_spec, mul_spec, sub_spec.
  apply SFadd_nonneg; [exact Hacc|].
  apply SFmul_self_nonneg, SFsub_finite_not_nan;
    [apply finite_spec, Hv|apply isnan_false_spec, Hm].
Qed.

Lemma std_nonneg (a : list float) :
  forallb F64.finite a = true ->
  (0 < length a)%nat -> (Z.of_nat (length a) < 2 ^ 63)%Z ->
  sf_nonneg (Prim2SF (np.std a)).
Proof.
  intros Ha Hn Hb. unfold np.std, np.var, np.ssd.
  destruct (float_of_size_finite (length a) Hn Hb) as (m & e & Hsz).
  rewrite sqrt_spec, div_spec.
  apply SFsqrt_nonneg. eapply SFdiv_nonneg; [|exact Hsz].
  apply fold_ssd_nonneg; [exact Ha|apply mean_defined; assumption|exact I].
Qed.

Lemma annualized_std_defined (a : list float) :
  forallb F64.finite a = true ->
  (0 < length a)%nat -> (Z.of_nat (length a) < 2 ^ 63)%Z ->
  F64.isnan (np.std a * np.sqrt365) = false.
Proof.
  intros Ha Hn Hb. destruct sqrt365_finite as (m & e & Hc).
  rewrite isnan_false_spec, mul_spec.
  eapply SFmul_finite_not_nan; [|exact Hc].
  apply sf_nonneg_not_nan, std_nonneg; assumption.
Qed.

End FiniteWindows.

Lemma rolling_mean_at_defined (arr : list float) (w : Z) (i : nat) :
  1 <= w -> w - 1 <= Z.of_nat i -> (i < length arr)%nat ->
  Z.of_nat (length arr) < 2 ^ 63 ->
  forallb F64.finite (window_at arr w i) = true ->
  F64.isnan (rolling_mean_at arr w i) = false.
Proof.
  intros Hw Hi Hlen Hb Hfin. unfold rolling_mean_at.
  destruct (Z.ltb_spec (Z.of_nat i) (w - 1)); [lia|].
  pose proof (window_at_length arr w i Hw Hi Hlen) as Hl.
  apply mean_defined; [exact Hfin|lia|lia].
Qed.

Lemma annualized_volatility_at_defined (arr : list float) (w : Z) (i : nat) :
  1 <= w -> w - 1 <= Z.of_nat i -> (i < length arr)%nat ->
  Z.of_nat (length arr) < 2 ^ 63 ->
  forallb F64.finite (window_at arr w i) = true ->
  F64.isnan (annualized_volatility_at arr w i) = false.
Proof.
  intros Hw Hi Hlen Hb Hfin. unfold annualized_volatility_at.
  destruct (Z.ltb_spec (Z.of_nat i) (w - 1)); [lia|].
  pose proof (window_at_length arr w i Hw Hi Hlen) as Hl.
  apply annualized_std_defined; [exact Hfin|lia|lia].
Qed.

(** ** Warm-up of the rolling statistics *)

Lemma forallb_slice (f : float -> bool) (a : list float) (start stop : Z) :
  forallb f a = true -> forallb f (np.slice a start stop) = true.
Proof.
  intros H. apply forallb_forall. intros x Hx.
  rewrite forallb_forall in H. apply H.
  apply list_elem_of_In, list_elem_of_lookup in Hx as [j Hj].
  unfold np.slice in Hj. rewrite lookup_take in Hj.
  destruct (decide _) in Hj; [|discriminate].
  rewrite lookup_drop in Hj.
  apply list_elem_of_In, list_elem_of_lookup. eauto.
Qed.

Lemma existsb_isnan_elem (a : list float) :
  existsb F64.isnan a = true -> exists x, x ∈ a /\ F64.isnan x = true.
Proof.
  intros H. apply existsb_exists in H as (x & Hin & Hx).
  exists x. split; [apply list_elem_of_In, Hin|exact Hx].
Qed.

(** C6, as the code has it.  Both rolling statistics keep the length of
    their input and are NaN at every position before [w - 1], hence
    everywhere when the series is shorter than the window.  From
    position [w - 1] on (for [w >= 1]) the value is not NaN when the [w]
    values of the trailing window are all finite, and it is NaN when the
    window holds a NaN. *)
Theorem rolling_statistics_warmup (arr : list float) (w : Z) (i : nat) :
  1 <= w -> (i < length arr)%nat ->
  length (rolling_mean_nb arr w) = length arr /\
  length (annualized_volatility_nb arr w) = length arr /\
  exists m v,
    rolling_mean_nb arr w !! i = Some m /\
    annualized_volatility_nb arr w !! i = Some v /\
    (Z.of_nat i < w - 1 -> F64.isnan m = true /\ F64.isnan v = true) /\
    (Z.of_nat (length arr) < w -> F64.isnan m = true /\ F64.isnan v = true) /\
    (w - 1 <= Z.of_nat i -> Z.of_nat (length arr) < 2 ^ 63 ->
     forallb F64.finite (np.slice arr (Z.of_nat i - w + 1) (Z.of_nat i + 1)) = true ->
     F64.isnan m = false /\ F64.isnan v = false) /\
    (w - 1 <= Z.of_nat i ->
     existsb F64.isnan (np.slice arr (Z.of_nat i - w + 1) (Z.of_nat i + 1)) = true ->
     F64.isnan m = true /\ F64.isnan v = true).
Proof.
  intros Hw Hi.
  split; [apply rolling_mean_nb_length|].
  split; [apply annualized_volatility_nb_length|].
  exists (rolling_mean_at arr w i), (annualized_volatility_at arr w i).
  split; [apply rolling_mean_nb_lookup, Hi|].
  split; [apply annualized_volatility_nb_lookup, Hi|].
  assert (Hwarm : Z.of_nat i < w - 1 ->
                  F64.isnan (rolling_mean_at arr w i) = true /\
                  F64.isnan (annualized_volatility_at arr w i) = true).
  { intros Hlt. unfold rolling_mean_at, annualized_volatility_at.
    destruct (Z.ltb_spec (Z.of_nat i) (w - 1)); [split; reflexivity|lia]. }
  split; [exact Hwarm|].
  split; [intros Hshort; apply Hwarm; lia|].
  split.
  - intros Hge Hb Hfin. split.
    + apply rolling_mean_at_defined; assumption.
    + apply annualized_volatility_at_defined; assumption.
  - intros Hge Hex.
    apply existsb_isnan_elem in Hex as (x & Hin & Hx).
    unfold rolling_mean_at, annualized_volatility_at.
    destruct (Z.ltb_spec (Z.of_nat i) (w - 1)); [lia|].
    split; [eapply mean_nan; eauto|].
    apply mul_nan_l. eapply std_nan; eauto.
Qed.

(** The returns of the eight bars, window 3, position 4: the window
    holds the finite returns of the positions 2 to 4. *)
Lemma rolling_statistics_warmup_witness :
  length (rolling_mean_nb (pd.pct_change eight_bars) 3)
  = length (pd.pct_change eight_bars) /\
  length (annualized_volatility_nb (pd.pct_change eight_bars) 3)
  = length (pd.pct_change eight_bars) /\
  exists m v,
    rolling_mean_nb (pd.pct_change eight_bars) 3 !! 4%nat = Some m /\
    annualized_volatility_nb (pd.pct_change eight_bars) 3 !! 4%nat = Some v /\
    (Z.of_nat 4 < 3 - 1 -> F64.isnan m = true /\ F64.isnan v = true) /\
    (Z.of_nat (length (pd.pct_change eight_bars)) < 3 ->
     F64.isnan m = true /\ F64.isnan v = true) /\
    (3 - 1 <= Z.of_nat 4 ->
     Z.of_nat (length (pd.pct_change eight_bars)) < 2 ^ 63 ->
     forallb F64.finite
       (np.slice (pd.pct_change eight_bars) (Z.of_nat 4 - 3 + 1) (Z.of_nat 4 + 1)) = true ->
     F64.isnan m = false /\ F64.isnan v = false) /\
    (3 - 1 <= Z.of_nat 4 ->
     existsb F64.isnan
       (np.slice (pd.pct_change eight_bars) (Z.of_nat 4 - 3 + 1) (Z.of_nat 4 + 1)) = true ->
     F64.isnan m = true /\ F64.isnan v = true).
Proof.
  apply (rolling_statistics_warmup (pd.pct_change eight_bars) 3 4);
    [lia | vm_compute; lia].
Defined.

(** C6 as stated fails: the returns of a price series start with NaN,
    so with the window 2 the statistics of position 1 (at least
    [w - 1], in a series of length 8) are NaN. *)
Lemma statistics_undefined_after_warmup :
  ~ (forall (arr : list float) (w : Z) (i : nat) (m v : float),
       1 <= w <= Z.of_nat (length arr) -> w - 1 <= Z.of_nat i ->
       rolling_mean_nb arr w !! i = Some m ->
       annualized_volatility_nb arr w !! i = Some v ->
       F64.isnan m = false /\ F64.isnan v = false).
Proof.
  intros H.
  destruct (H (pd.pct_change eight_bars) 2 1%nat nan nan
              ltac:(split; [lia | vm_compute; discriminate]) ltac:(simpl; lia)
              eq_refl eq_refl) as [Hm _].
  discriminate Hm.
Qed.

(** ** The default windows on 400 bars *)


Lemma regime_label_defined (p ms ml vs thr : float) :
  all_defined ms ml vs = true -> 1 <= regime_label p ms ml vs thr <= 6.
Proof.
  unfold all_defined, regime_label. intros H.
  apply negb_true_iff in H. rewrite H.
  destruct (F64.gt p ms && F64.gt p ml);
    [|destruct (F64.lt p ms && F64.lt p ml)];
    destruct (F64.gt vs thr); lia.
Qed.



(** On the ramp 100, 101, ..., 499 the labels are Unknown for the
    positions 0 to 86 and Below-Average-Volatility Bull Trend after. *)
Example ramp_labels :
  calculate_regimes_nb ramp (pd.pct_change ramp) 21 88 21 365
  = Ok (replicate 87 (-1) ++ replicate 313 2).
Proof. vm_compute. reflexivity. Qed.


(** ** Labels and their descriptions *)

(** The trend half of the label of one position does not depend on the
    threshold. *)
Lemma trend_of_regime_label (p ms ml vs thr : float) :
  trend_of (regime_label p ms ml vs thr)
  = if negb (all_defined ms ml vs) then Unknown
    else if F64.gt p ms && F64.gt p ml then Bull
    else if F64.lt p ms && F64.lt p ml then Bear
    else Sideways.
Proof.
  unfold regime_label, all_defined.
  destruct (F64.isnan ms || F64.isnan ml || F64.isnan vs); [reflexivity|].
  destruct (F64.gt p ms && F64.gt p ml);
    [|destruct (F64.lt p ms && F64.lt p ml)];
    destruct (F64.gt vs thr); reflexivity.
Qed.

Lemma regime_label_range (p ms ml vs thr : float) :
  regime_label p ms ml vs thr = -1
  \/ is_Some (dict_get regime_descriptions (regime_label p ms ml vs thr)).
Proof.
  unfold regime_label.
  destruct (F64.isnan ms || F64.isnan ml || F64.isnan vs); [left; reflexivity|].
  right.
  destruct (F64.gt p ms && F64.gt p ml);
    [|destruct (F64.lt p ms && F64.lt p ml)];
    destruct (F64.gt vs thr); eexists; reflexivity.
Qed.

(** X1.  The classifier writes every cell, and what it writes is -1 or
    a key of [regime_descriptions]; -1 (and 0) are no keys, and every
    key is the label of some input. *)
Theorem labels_are_unknown_or_described
    (price ma_short ma_long vol_short : list float) (thr : float) :
  length ma_short = length price ->
  length ma_long = length price ->
  length vol_short = length price ->
  (exists regimes,
     determine_regime_nb price ma_short ma_long vol_short thr = Ok regimes /\
     length regimes = length price /\
     forall i r, regimes !! i = Some r ->
       r = -1 \/ is_Some (dict_get regime_descriptions r)) /\
  dict_get regime_descriptions (-1) = None /\
  dict_get regime_descriptions 0 = None /\
  (forall k d, dict_get regime_descriptions k = Some d ->
     exists p ms ml vs t,
       determine_regime_nb [p] [ms] [ml] [vs] t = Ok [k]).
Proof.
  intros Hs Hl Hv. split; [|split; [reflexivity|split; [reflexivity|]]].
  - eexists. split; [apply determine_regime_nb_tabulate; assumption|].
    split; [rewrite length_fmap, length_seq; reflexivity|].
    intros i r Hi.
    assert (Hlt : (i < length price)%nat).
    { apply lookup_lt_Some in Hi. rewrite length_fmap, length_seq in Hi. exact Hi. }
    rewrite tabulate_lookup in Hi by exact Hlt. injection Hi as <-.
    apply regime_label_range.
  - intros k d. unfold dict_get, regime_descriptions. cbn [List.find fst snd].
    destruct (Z.eqb_spec 1 k) as [<-|_];
      [exists 3%float, 1%float, 2%float, 1%float, 0%float; reflexivity|].
    destruct (Z.eqb_spec 2 k) as [<-|_];
      [exists 3%float, 1%float, 2%float, 1%float, 1%float; reflexivity|].
    destruct (Z.eqb_spec 3 k) as [<-|_];
      [exists 2%float, 1%float, 3%float, 1%float, 0%float; reflexivity|].
    destruct (Z.eqb_spec 4 k) as [<-|_];
      [exists 2%float, 1%float, 3%float, 1%float, 1%float; reflexivity|].
    destruct (Z.eqb_spec 5 k) as [<-|_];
      [exists 1%float, 2%float, 3%float, 1%float, 0%float; reflexivity|].
    destruct (Z.eqb_spec 6 k) as [<-|_];
      [exists 1%float, 2%float, 3%float, 1%float, 1%float; reflexivity|].
    discriminate.
Qed.

Lemma labels_are_unknown_or_described_witness :
  (exists regimes,
     determine_regime_nb [1; 2; 3]%float [nan; 1.5; 3]%float [nan; nan; 2]%float
                         [nan; 0.5; 0.5]%float 0.25%float = Ok regimes /\
     length regimes = 3%nat /\
     forall i r, regimes !! i = Some r ->
       r = -1 \/ is_Some (dict_get regime_descriptions r)) /\
  dict_get regime_descriptions (-1) = None /\
  dict_get regime_descriptions 0 = None /\
  (forall k d, dict_get regime_descriptions k = Some d ->
     exists p ms ml vs t,
       determine_regime_nb [p] [ms] [ml] [vs] t = Ok [k]).
Proof.
  apply (labels_are_unknown_or_described
           [1; 2; 3]%float [nan; 1.5; 3]%float [nan; nan; 2]%float
           [nan; 0.5; 0.5]%float 0.25%float); reflexivity.
Defined.

(** X2.  Where the three statistics are defined, the description stored
    for the label names the branch that wrote it: "Above" exactly when
    the short volatility is strictly above the threshold, "Bull Trend"
    when the price is strictly above both averages, "Bear Trend" when it
    is strictly below both, "Sideways" otherwise. *)
Theorem description_names_the_branch
    (price ma_short ma_long vol_short : list float) (thr : float)
    (i : nat) (p ms ml vs : float) :
  length ma_short = length price ->
  length ma_long = length price ->
  length vol_short = length price ->
  price !! i = Some p -> ma_short !! i = Some ms ->
  ma_long !! i = Some ml -> vol_short !! i = Some vs ->
  all_defined ms ml vs = true ->
  exists regimes r,
    determine_regime_nb price ma_short ma_long vol_short thr = Ok regimes /\
    regimes !! i = Some r /\
    dict_get regime_descriptions r
    = Some ((if F64.gt vs thr then "Above" else "Below") +:+ " Avg Vol "
            +:+ (if F64.gt p ms && F64.gt p ml then "Bull Trend"
                 else if F64.lt p ms && F64.lt p ml then "Bear Trend"
                 else "Sideways"))%string.
Proof.
  intros Hs Hl Hv Hp Hms Hml Hvs Hdef.
  assert (Hi : (i < length price)%nat) by (eapply lookup_lt_Some; eauto).
  eexists _, _. split; [apply determine_regime_nb_tabulate; assumption|].
  split; [apply tabulate_lookup, Hi|].
  unfold regime_at.
  rewrite (cell_lookup _ _ _ Hp), (cell_lookup _ _ _ Hms),
          (cell_lookup _ _ _ Hml), (cell_lookup _ _ _ Hvs).
  unfold regime_label. unfold all_defined in Hdef.
  apply negb_true_iff in Hdef. rewrite Hdef.
  destruct (F64.gt p ms && F64.gt p ml);
    [|destruct (F64.lt p ms && F64.lt p ml)];
    destruct (F64.gt vs thr); reflexivity.
Qed.

Lemma description_names_the_branch_witness :
  exists regimes r,
    determine_regime_nb [1; 2; 3]%float [nan; 1.5; 3]%float [nan; nan; 2]%float
                        [nan; 0.5; 0.5]%float 0.25%float = Ok regimes /\
    regimes !! 2%nat = Some r /\
    dict_get regime_descriptions r
    = Some ((if F64.gt 0.5 0.25 then "Above" else "Below") +:+ " Avg Vol "
            +:+ (if F64.gt 3 3 && F64.gt 3 2 then "Bull Trend"
                 else if F64.lt 3 3 && F64.lt 3 2 then "Bear Trend"
                 else "Sideways"))%string.
Proof.
  apply (description_names_the_branch
           [1; 2; 3]%float [nan; 1.5; 3]%float [nan; nan; 2]%float
           [nan; 0.5; 0.5]%float 0.25%float 2 3%float 3%float 2%float 0.5%float);
    reflexivity.
Defined.

(** X3.  A NaN price that meets defined statistics is labelled
    Sideways: both strict comparisons with the averages are false. *)
Theorem nan_price_with_defined_statistics_is_sideways
    (price ma_short ma_long vol_short : list float) (thr : float)
    (i : nat) (p ms ml vs : float) :
  length ma_short = length price ->
  length ma_long = length price ->
  length vol_short = length price ->
  price !! i = Some p -> ma_short !! i = Some ms ->
  ma_long !! i = Some ml -> vol_short !! i = Some vs ->
  all_defined ms ml vs = true -> F64.isnan p = true ->
  exists regimes,
    determine_regime_nb price ma_short ma_long vol_short thr = Ok regimes /\
    regimes !! i = Some (if F64.gt vs thr then 3 else 4).
Proof.
  intros Hs Hl Hv Hp Hms Hml Hvs Hdef Hn.
  assert (Hi : (i < length price)%nat) by (eapply lookup_lt_Some; eauto).
  eexists. split; [apply determine_regime_nb_tabulate; assumption|].
  rewrite tabulate_lookup by exact Hi. f_equal.
  unfold regime_at.
  rewrite (cell_lookup _ _ _ Hp), (cell_lookup _ _ _ Hms),
          (cell_lookup _ _ _ Hml), (cell_lookup _ _ _ Hvs).
  unfold regime_label. unfold all_defined in Hdef.
  apply negb_true_iff in Hdef. rewrite Hdef.
  rewrite (gt_nan_l p ms Hn). unfold F64.lt. rewrite (ltb_nan_l p ms Hn).
  reflexivity.
Qed.

Lemma nan_price_with_defined_statistics_is_sideways_witness :
  exists regimes,
    determine_regime_nb [1; nan]%float [1; 2]%float [1; 3]%float [1; 0.5]%float 0.25
    = Ok regimes /\
    regimes !! 1%nat = Some (if F64.gt 0.5 0.25 then 3 else 4).
Proof.
  apply (nan_price_with_defined_statistics_is_sideways
           [1; nan]%float [1; 2]%float [1; 3]%float [1; 0.5]%float 0.25%float
           1 nan 2%float 3%float 0.5%float); reflexivity.
Defined.

Lemma tabulate_const_replicate {A} (x : A) (n : nat) :
  (fun _ => x) <$> seq 0 n = replicate n x.
Proof.
  apply list_eq. intros i. destruct (decide (i < n)%nat) as [Hi|Hi].
  - rewrite tabulate_lookup by exact Hi.
    symmetry. apply lookup_replicate_2, Hi.
  - rewrite !lookup_ge_None_2; [reflexivity| |];
      rewrite ?length_replicate, ?length_fmap, ?length_seq; lia.
Qed.

Lemma forallb_lookup {A} (f : A -> bool) (a : list A) (i : nat) (x : A) :
  forallb f a = true -> a !! i = Some x -> f x = true.
Proof.
  intros H Hx. rewrite forallb_forall in H. apply H.
  apply list_elem_of_In, list_elem_of_lookup. eauto.
Qed.

(** X4.  Where the short average is NaN the classifier reads neither
    the long average nor the volatility: when the short average is NaN
    at every position, every label is Unknown whatever the other two
    arrays hold, even when they are shorter than the price series. *)
Theorem nan_short_average_decides_alone
    (price ma_short ma_long vol_short : list float) (thr : float) :
  length ma_short = length price ->
  forallb F64.isnan ma_short = true ->
  determine_regime_nb price ma_short ma_long vol_short thr
  = Ok (replicate (length price) (-1)).
Proof.
  intros Hs Hnan. rewrite <- tabulate_const_replicate.
  unfold determine_regime_nb. apply (for_range_fill_gen Ok).
  - intros i o Hi. cbn [bind]. unfold or_else.
    rewrite (getitem_cell ma_short i) by lia. cbn [bind].
    assert (Hc : F64.isnan (cell ma_short i) = true).
    { destruct (lookup_lt_is_Some_2 ma_short i ltac:(lia)) as [x Hx].
      rewrite (cell_lookup _ _ _ Hx). eapply forallb_lookup; eauto. }
    rewrite Hc. reflexivity.
  - unfold np.empty_like. apply length_replicate.
Qed.

Lemma nan_short_average_decides_alone_witness :
  determine_regime_nb [1; 2; 3]%float [nan; nan; nan]%float [] [1]%float 0.25
  = Ok (replicate (length [1; 2; 3]%float) (-1)).
Proof.
  apply (nan_short_average_decides_alone
           [1; 2; 3]%float [nan; nan; nan]%float [] [1]%float 0.25%float);
    reflexivity.
Defined.

(** X5.  The window of the volatility threshold bears on the volatility
    half of the labels only: two runs that differ in [avg_vol_window]
    give every position the same trend (Unknown, Bull, Sideways or
    Bear). *)
Theorem avg_vol_window_keeps_the_trend
    (price returns : list float) (w1 w2 w3 w4 w4' : Z) :
  length returns = length price ->
  0 < w1 -> 0 < w2 -> 0 < w3 -> 0 < w4 -> 0 < w4' ->
  exists regimes regimes',
    calculate_regimes_nb price returns w1 w2 w3 w4 = Ok regimes /\
    calculate_regimes_nb price returns w1 w2 w3 w4' = Ok regimes' /\
    length regimes = length regimes' /\
    forall i r r', regimes !! i = Some r -> regimes' !! i = Some r' ->
      trend_of r = trend_of r'.
Proof.
  intros Hlen _ _ _ _ _. eexists _, _.
  split; [apply calculate_regimes_nb_tabulate, Hlen|].
  split; [apply calculate_regimes_nb_tabulate, Hlen|].
  split; [rewrite !length_fmap; reflexivity|].
  intros i r r' Hr Hr'.
  assert (Hlt : (i < length price)%nat).
  { apply lookup_lt_Some in Hr. rewrite length_fmap, length_seq in Hr. exact Hr. }
  rewrite tabulate_lookup in Hr, Hr' by exact Hlt.
  injection Hr as <-. injection Hr' as <-.
  unfold pipeline_label. rewrite !trend_of_regime_label. reflexivity.
Qed.

Lemma avg_vol_window_keeps_the_trend_witness :
  exists regimes regimes',
    calculate_regimes_nb eight_bars (pd.pct_change eight_bars) 2 3 2 4 = Ok regimes /\
    calculate_regimes_nb eight_bars (pd.pct_change eight_bars) 2 3 2 8 = Ok regimes' /\
    length regimes = length regimes' /\
    forall i r r', regimes !! i = Some r -> regimes' !! i = Some r' ->
      trend_of r = trend_of r'.
Proof.
  apply (avg_vol_window_keeps_the_trend eight_bars (pd.pct_change eight_bars) 2 3 2 4 8);
    [reflexivity | lia | lia | lia | lia | lia].
Defined.

(** ** Appending bars *)

Lemma slice_app_l {A} (a b : list A) (s e : Z) :
  0 <= s -> 0 <= e <= Z.of_nat (length a) ->
  np.slice (a ++ b) s e = np.slice a s e.
Proof.
  intros Hs He. unfold np.slice, np.clamp. rewrite length_app.
  destruct (Z.ltb_spec s 0); [lia|]. destruct (Z.ltb_spec e 0); [lia|].
  destruct (Z_lt_le_dec s e) as [Hlt|Hge].
  - rewrite !Z.min_l by lia.
    rewrite drop_app_le by lia.
    rewrite take_app_le by (rewrite length_drop; lia). reflexivity.
  - replace (Z.to_nat (Z.min e (Z.of_nat (length a + length b))
                       - Z.min s (Z.of_nat (length a + length b)))) with 0%nat by lia.
    replace (Z.to_nat (Z.min e (Z.of_nat (length a))
                       - Z.min s (Z.of_nat (length a)))) with 0%nat by lia.
    reflexivity.
Qed.

Lemma window_at_app_l (arr ext : list float) (w : Z) (i : nat) :
  w - 1 <= Z.of_nat i -> (i < length arr)%nat ->
  window_at (arr ++ ext) w i = window_at arr w i.
Proof. intros Hw Hi. unfold window_at. apply slice_app_l; lia. Qed.

Lemma rolling_mean_at_app_l (arr ext : list float) (w : Z) (i : nat) :
  (i < length arr)%nat ->
  rolling_mean_at (arr ++ ext) w i = rolling_mean_at arr w i.
Proof.
  intros Hi. unfold rolling_mean_at.
  destruct (Z.ltb_spec (Z.of_nat i) (w - 1)); [reflexivity|].
  rewrite window_at_app_l by lia. reflexivity.
Qed.

Lemma annualized_volatility_at_app_l (arr ext : list float) (w : Z) (i : nat) :
  (i < length arr)%nat ->
  annualized_volatility_at (arr ++ ext) w i = annualized_volatility_at arr w i.
Proof.
  intros Hi. unfold annualized_volatility_at.
  destruct (Z.ltb_spec (Z.of_nat i) (w - 1)); [reflexivity|].
  rewrite window_at_app_l by lia. reflexivity.
Qed.

(** X6.  The rolling statistics look backwards only: appending values
    to a series changes neither the rolling mean nor the annualized
    volatility of a position that was already there. *)
Theorem rolling_statistics_are_causal (arr ext : list float) (w : Z) (i : nat) :
  0 < w -> (i < length arr)%nat ->
  rolling_mean_nb (arr ++ ext) w !! i = rolling_mean_nb arr w !! i /\
  annualized_volatility_nb (arr ++ ext) w !! i = annualized_volatility_nb arr w !! i.
Proof.
  intros _ Hi.
  rewrite !rolling_mean_nb_lookup, !annualized_volatility_nb_lookup
    by (rewrite ?length_app; lia).
  rewrite rolling_mean_at_app_l, annualized_volatility_at_app_l by exact Hi.
  split; reflexivity.
Qed.

Lemma rolling_statistics_are_causal_witness :
  rolling_mean_nb (eight_bars ++ [100]%float) 3 !! 5%nat
  = rolling_mean_nb eight_bars 3 !! 5%nat /\
  annualized_volatility_nb (eight_bars ++ [100]%float) 3 !! 5%nat
  = annualized_volatility_nb eight_bars 3 !! 5%nat.
Proof.
  apply (rolling_statistics_are_causal eight_bars [100]%float 3 5);
    [lia | simpl; lia].
Defined.

Lemma ffill_from_app (l : float) (xs ys : list float) :
  exists l', pd.ffill_from l (xs ++ ys) = pd.ffill_from l xs ++ pd.ffill_from l' ys.
Proof.
  revert l. induction xs as [|x xs IH]; intros l; simpl.
  - exists l. reflexivity.
  - destruct (IH (if F64.isnan x then l else x)) as [l' ->].
    exists l'. reflexivity.
Qed.

Lemma shift1_lookup (d : list float) (i : nat) :
  (i < length d)%nat -> pd.shift1 d !! i = (nan :: d) !! i.
Proof.
  intros Hi. unfold pd.shift1. rewrite lookup_take.
  destruct (decide (i < length d)%nat); [reflexivity|lia].
Qed.

Lemma pct_change_app_lookup (xs ys : list float) (i : nat) :
  (i < length xs)%nat ->
  pd.pct_change (xs ++ ys) !! i = pd.pct_change xs !! i.
Proof.
  intros Hi. unfold pd.pct_change, pd.ffill.
  destruct (ffill_from_app nan xs ys) as [l' ->].
  rewrite !lookup_zip_with.
  assert (Hl : length (pd.ffill_from nan xs) = length xs) by apply ffill_from_length.
  rewrite lookup_app_l by lia.
  rewrite !shift1_lookup by (rewrite ?length_app; lia).
  destruct i as [|j]; [reflexivity|].
  simpl. rewrite lookup_app_l by lia. reflexivity.
Qed.

Lemma pct_change_app (xs ys : list float) :
  exists rest, pd.pct_change (xs ++ ys) = pd.pct_change xs ++ rest.
Proof.
  exists (drop (length xs) (pd.pct_change (xs ++ ys))).
  rewrite <- (take_drop (length xs) (pd.pct_change (xs ++ ys))) at 1.
  f_equal. apply list_eq. intros i. rewrite lookup_take.
  destruct (decide (i < length xs)%nat) as [Hi|Hi].
  - apply pct_change_app_lookup, Hi.
  - symmetry. apply lookup_ge_None_2. rewrite pct_change_length. lia.
Qed.

(** X7.  Appending bars to a price series (as the forecast does with
    its hypothetical bar) and recomputing everything leaves the trend of
    every bar that was already there as it was: only the volatility half
    of an earlier label can change, through the recomputed threshold. *)
Theorem appending_bars_keeps_the_trend (close extra : list float) :
  exists regimes regimes',
    fetch_and_process_data_body close = Ok regimes /\
    fetch_and_process_data_body (close ++ extra) = Ok regimes' /\
    forall i r, regimes !! i = Some r ->
      exists r', regimes' !! i = Some r' /\ trend_of r' = trend_of r.
Proof.
  unfold fetch_and_process_data_body, RegimeIndicator_run. cbn [Close Return].
  eexists _, _.
  split; [apply calculate_regimes_nb_tabulate, pct_change_length|].
  split; [apply calculate_regimes_nb_tabulate, pct_change_length|].
  intros i r Hr.
  assert (Hlt : (i < length close)%nat).
  { apply lookup_lt_Some in Hr. rewrite length_fmap, length_seq in Hr. exact Hr. }
  rewrite tabulate_lookup in Hr by exact Hlt. injection Hr as <-.
  eexists. split; [apply tabulate_lookup; rewrite length_app; lia|].
  unfold pipeline_label. rewrite !trend_of_regime_label.
  destruct (pct_change_app close extra) as [rest ->].
  rewrite !rolling_mean_at_app_l by exact Hlt.
  rewrite annualized_volatility_at_app_l by (rewrite pct_change_length; exact Hlt).
  unfold cell. rewrite lookup_app_l by exact Hlt. reflexivity.
Qed.

(** ** The length of the warm-up *)

Lemma regime_label_unknown_iff (p ms ml vs thr : float) :
  regime_label p ms ml vs thr = -1 <-> all_defined ms ml vs = false.
Proof.
  split.
  - intros H. destruct (all_defined ms ml vs) eqn:E; [|reflexivity].
    pose proof (regime_label_defined p ms ml vs thr E). lia.
  - unfold all_defined, regime_label. intros H.
    apply negb_false_iff in H. rewrite H. reflexivity.
Qed.

Lemma forallb_slice_tail (f : float -> bool) (a : list float) (start stop : Z) :
  1 <= start -> forallb f (drop 1 a) = true ->
  forallb f (np.slice a start stop) = true.
Proof.
  intros Hs H. apply forallb_forall. intros x Hx.
  apply list_elem_of_In, list_elem_of_lookup in Hx as [j Hj].
  unfold np.slice, np.clamp in Hj.
  assert (Hc : (start <? 0) = false) by (apply Z.ltb_ge; lia).
  rewrite Hc, lookup_take in Hj.
  destruct (decide _) in Hj; [|discriminate].
  rewrite lookup_drop in Hj.
  assert (Hlen : (0 < length a)%nat).
  { apply lookup_lt_Some in Hj. lia. }
  apply (forallb_lookup f (drop 1 a)
           (Z.to_nat (Z.min start (Z.of_nat (length a))) + j - 1) x H).
  rewrite lookup_drop.
  rewrite <- Hj. f_equal. lia.
Qed.

(** With finite prices and returns that are NaN at the first position
    (as a percentage change is) and finite after it, the Unknown labels
    are exactly those of the positions before
    [max(ma_short_window, ma_long_window, vol_short_window + 1) - 1]. *)
Lemma warmup_characterisation
    (price returns : list float) (w1 w2 w3 w4 : Z) (i : nat) (r0 : float) :
  length returns = length price ->
  0 < w1 -> 0 < w2 -> 0 < w3 ->
  Z.of_nat (length price) < 2 ^ 63 ->
  forallb F64.finite price = true ->
  returns !! 0%nat = Some r0 -> F64.isnan r0 = true ->
  forallb F64.finite (drop 1 returns) = true ->
  (i < length price)%nat ->
  pipeline_label price returns w1 w2 w3 w4 i = -1
  <-> Z.of_nat i < Z.max (Z.max w1 w2) (w3 + 1) - 1.
Proof.
  intros Hlen H1 H2 H3 Hb Hfp H0 Hn0 Hfr Hi.
  unfold pipeline_label. rewrite regime_label_unknown_iff. unfold all_defined.
  rewrite negb_false_iff. split.
  - intros Hnan.
    destruct (Z_lt_le_dec (Z.of_nat i) (Z.max (Z.max w1 w2) (w3 + 1) - 1))
      as [Hlt|Hge]; [exact Hlt|].
    rewrite rolling_mean_at_defined, rolling_mean_at_defined,
            annualized_volatility_at_defined in Hnan;
      try discriminate Hnan; try lia;
      try (apply forallb_slice, Hfp).
    apply forallb_slice_tail; [lia|exact Hfr].
  - intros Hlt.
    destruct (Z_lt_le_dec (Z.of_nat i) (w1 - 1)) as [Ha|Ha].
    { unfold rolling_mean_at at 1.
      destruct (Z.ltb_spec (Z.of_nat i) (w1 - 1)); [reflexivity|lia]. }
    destruct (Z_lt_le_dec (Z.of_nat i) (w2 - 1)) as [Hb'|Hb'].
    { unfold rolling_mean_at at 2.
      destruct (Z.ltb_spec (Z.of_nat i) (w2 - 1)); [|lia].
      rewrite isnan_nan, orb_true_r. reflexivity. }
    rewrite (annualized_volatility_at_nan returns w3 i 0 r0)
      by (try assumption; lia).
    apply orb_true_r.
Qed.

(** X8.  With finite prices, and returns that are NaN at the first
    position and finite after it, a run of the pipeline labels a
    position Unknown exactly when it lies before
    [max(ma_short_window, ma_long_window, vol_short_window + 1) - 1]:
    the first return being NaN, the short volatility needs one bar more
    than its window. *)
Theorem unknown_exactly_during_warmup
    (price returns : list float) (w1 w2 w3 w4 : Z) (i : nat) (r0 : float) :
  length returns = length price ->
  0 < w1 -> 0 < w2 -> 0 < w3 -> 0 < w4 ->
  Z.of_nat (length price) < 2 ^ 63 ->
  forallb F64.finite price = true ->
  returns !! 0%nat = Some r0 -> F64.isnan r0 = true ->
  forallb F64.finite (drop 1 returns) = true ->
  (i < length price)%nat ->
  exists regimes r,
    calculate_regimes_nb price returns w1 w2 w3 w4 = Ok regimes /\
    regimes !! i = Some r /\
    (r = -1 <-> Z.of_nat i < Z.max (Z.max w1 w2) (w3 + 1) - 1).
Proof.
  intros Hlen H1 H2 H3 _ Hb Hfp H0 Hn0 Hfr Hi.
  eexists _, _. split; [apply calculate_regimes_nb_tabulate, Hlen|].
  split; [apply tabulate_lookup, Hi|].
  eapply warmup_characterisation; eassumption.
Qed.

(** Eight bars, windows 2, 3, 3 and 4, position 3: the short volatility
    is the last statistic to become defined. *)
Lemma unknown_exactly_during_warmup_witness :
  exists regimes r,
    calculate_regimes_nb eight_bars (pd.pct_change eight_bars) 2 3 3 4 = Ok regimes /\
    regimes !! 3%nat = Some r /\
    (r = -1 <-> Z.of_nat 3 < Z.max (Z.max 2 3) (3 + 1) - 1).
Proof.
  apply (unknown_exactly_during_warmup
           eight_bars (pd.pct_change eight_bars) 2 3 3 4 3 nan);
    try reflexivity; try lia. simpl. lia.
Defined.

Lemma pct_change_head_nan (xs : list float) :
  (0 < length xs)%nat ->
  exists r0, pd.pct_change xs !! 0%nat = Some r0 /\ F64.isnan r0 = true.
Proof.
  intros Hn. unfold pd.pct_change.
  assert (Hl : (0 < length (pd.ffill xs))%nat)
    by (unfold pd.ffill; rewrite ffill_from_length; exact Hn).
  destruct (lookup_lt_is_Some_2 (pd.ffill xs) 0 Hl) as [y Hy].
  exists (y / nan - 1)%float. split.
  - rewrite lookup_zip_with, Hy, shift1_lookup by exact Hl. reflexivity.
  - apply sub_nan_l, div_nan_r. reflexivity.
Qed.

(** X9.  For every downloaded price series the per-ticker computation
    raises nothing and returns one label per bar; the first 87 labels
    (all of them for a shorter series) are Unknown.  When the prices
    and the returns after the first are finite, these are the only
    Unknown labels. *)
Theorem first_87_bars_are_unknown (close : list float) :
  exists regimes,
    fetch_and_process_data_body close = Ok regimes /\
    length regimes = length close /\
    (forall i, (i < 87)%nat -> (i < length close)%nat -> regimes !! i = Some (-1)) /\
    (Z.of_nat (length close) < 2 ^ 63 ->
     forallb F64.finite close = true ->
     forallb F64.finite (drop 1 (pd.pct_change close)) = true ->
     forall i r, regimes !! i = Some r -> (r = -1 <-> (i < 87)%nat)).
Proof.
  unfold fetch_and_process_data_body, RegimeIndicator_run. cbn [Close Return].
  eexists. split; [apply calculate_regimes_nb_tabulate, pct_change_length|].
  split; [rewrite length_fmap, length_seq; reflexivity|].
  split.
  - intros i Hi Hlt. rewrite tabulate_lookup by exact Hlt. f_equal.
    unfold pipeline_label, regime_label.
    replace (rolling_mean_at close 88 i) with nan.
    + rewrite isnan_nan, orb_true_r. reflexivity.
    + unfold rolling_mean_at.
      destruct (Z.ltb_spec (Z.of_nat i) (88 - 1)); [reflexivity|lia].
  - intros Hb Hfp Hfr i r Hr.
    assert (Hlt : (i < length close)%nat).
    { apply lookup_lt_Some in Hr. rewrite length_fmap, length_seq in Hr. exact Hr. }
    rewrite tabulate_lookup in Hr by exact Hlt. injection Hr as <-.
    destruct (pct_change_head_nan close ltac:(lia)) as (r0 & H0 & Hn0).
    rewrite (warmup_characterisation close (pd.pct_change close) 21 88 21 365 i r0);
      try assumption; try lia.
    apply pct_change_length.
Qed.

Lemma short_history_forecast_unknown (df : DataFrame) (h : float) :
  (0 < length (Close df) < 87)%nat ->
  forecast_next_regime df h = Ok (-1).
Proof.
  intros [Hpos Hlt].
  destruct (last (Close df)) as [p|] eqn:Hp.
  - rewrite (forecast_next_regime_label df h p Hp). f_equal.
    unfold pipeline_label, regime_label.
    replace (rolling_mean_at _ 88 (length (Close df))) with nan.
    + rewrite isnan_nan, orb_true_r. reflexivity.
    + unfold rolling_mean_at.
      destruct (Z.ltb_spec (Z.of_nat (length (Close df))) (88 - 1)); [reflexivity|lia].
  - rewrite last_None in Hp. rewrite Hp in Hpos. simpl in Hpos. lia.
Qed.

(** X10.  With fewer than 87 bars of history the forecast is Unknown,
    whatever the hypothetical return: the appended bar lies inside the
    warm-up of the long moving average. *)
Theorem forecast_needs_87_bars (df : DataFrame) (h : float) :
  (0 < length (Close df) < 87)%nat ->
  forecast_next_regime df h = Ok (-1).
Proof. apply short_history_forecast_unknown. Qed.

Lemma forecast_needs_87_bars_witness :
  forecast_next_regime {| Close := eight_bars; Return := [] |} 1 = Ok (-1).
Proof.
  apply (forecast_needs_87_bars {| Close := eight_bars; Return := [] |} 1%float).
  simpl. lia.
Defined.

(** When the last price or the hypothetical return is NaN, the
    hypothetical price is NaN and the forecast is Unknown. *)
Lemma forecast_of_nan_is_unknown (df : DataFrame) (h p : float) :
  last (Close df) = Some p ->
  F64.isnan (p * (1 + h))%float = true ->
  forecast_next_regime df h = Ok (-1).
Proof.
  intros Hp Hhyp.
  rewrite (forecast_next_regime_label df h p Hp). f_equal.
  unfold pipeline_label, regime_label.
  rewrite (rolling_mean_at_nan _ 21 (length (Close df)) (length (Close df))
             (p * (1 + h))%float); try reflexivity; try lia; try exact Hhyp.
  - rewrite length_app. simpl. lia.
  - rewrite lookup_app_r by lia. rewrite Nat.sub_diag. reflexivity.
Qed.

Lemma first_87_bars_are_unknown_witness :
  exists regimes,
    fetch_and_process_data_body ramp = Ok regimes /\
    length regimes = length ramp /\
    (forall i r, regimes !! i = Some r -> (r = -1 <-> (i < 87)%nat)).
Proof.
  destruct (first_87_bars_are_unknown ramp) as (regimes & H1 & H2 & _ & H4).
  exists regimes. split; [exact H1|]. split; [exact H2|].
  apply H4; vm_compute; reflexivity.
Defined.

(** ** The volatility is never negative *)

Section NonNegative.
Variables prec emax : Z.

Lemma sf_nonneg_or_nan_cases (x : spec_float) :
  sf_nonneg_or_nan x <-> x = S754_nan \/ sf_nonneg x.
Proof.
  destruct x as [s|[]| |[] m e]; simpl; split; intros H; auto;
    try (destruct H as [H|H]; [discriminate H|contradiction]).
Qed.

Lemma SFmul_self_nonneg_or_nan (x : spec_float) :
  sf_nonneg_or_nan (SFmul prec emax x x).
Proof.
  apply sf_nonneg_or_nan_cases.
  destruct x as [s|s| |s m e] eqn:E; try (left; reflexivity);
    right; rewrite <- E; apply SFmul_self_nonneg; congruence.
Qed.

Lemma SFadd_nonneg_or_nan (x y : spec_float) :
  sf_nonneg_or_nan x -> sf_nonneg_or_nan y ->
  sf_nonneg_or_nan (SFadd prec emax x y).
Proof.
  rewrite !sf_nonneg_or_nan_cases. intros [->|Hx] [->|Hy].
  - left. reflexivity.
  - left. reflexivity.
  - left. destruct x; reflexivity.
  - right. apply SFadd_nonneg; assumption.
Qed.

Lemma SFdiv_nonneg_or_nan (x y : spec_float) :
  sf_nonneg_or_nan x ->
  y = S754_zero false \/ (exists m e, y = S754_finite false m e) ->
  sf_nonneg_or_nan (SFdiv prec emax x y).
Proof.
  intros Hx [-> | (m & e & ->)].
  - destruct x as [s|[]| |[] mx ex]; simpl in *; try contradiction; exact I.
  - apply sf_nonneg_or_nan_cases. apply sf_nonneg_or_nan_cases in Hx as [->|Hx].
    + left. reflexivity.
    + right. eapply SFdiv_nonneg; [exact Hx|reflexivity].
Qed.

Lemma SFsqrt_nonneg_or_nan (x : spec_float) :
  sf_nonneg_or_nan x -> sf_nonneg_or_nan (SFsqrt prec emax x).
Proof.
  rewrite !sf_nonneg_or_nan_cases. intros [->|Hx].
  - left. reflexivity.
  - right. apply SFsqrt_nonneg, Hx.
Qed.

Lemma SFmul_nonneg_or_nan_finite (x : spec_float) (m : positive) (e : Z) :
  sf_nonneg_or_nan x ->
  sf_nonneg_or_nan (SFmul prec emax x (S754_finite false m e)).
Proof.
  intros Hx. destruct x as [s|[]| |[] mx ex]; simpl in *;
    try contradiction; try exact I.
  apply sf_nonneg_or_nan_cases. right.
  apply sf_signed_nonneg, binary_round_aux_signed. lia.
Qed.

End NonNegative.

Lemma float_of_size_shape (n : nat) :
  Z.of_nat n < 2 ^ 63 ->
  Prim2SF (np.float_of_size n) = S754_zero false
  \/ exists m e, Prim2SF (np.float_of_size n) = S754_finite false m e.
Proof.
  intros Hb. destruct n as [|n].
  - left. reflexivity.
  - right. apply float_of_size_finite; lia.
Qed.

Lemma nonneg_or_nan_not_negative (x : float) :
  sf_nonneg_or_nan (Prim2SF x) -> F64.lt x 0 = false.
Proof.
  unfold F64.lt. rewrite ltb_spec.
  change (Prim2SF 0) with (S754_zero false).
  destruct (Prim2SF x) as [s|[]| |[] m e]; simpl; intros H;
    try contradiction; reflexivity.
Qed.

Section NonNegativeStatistics.
Local Open Scope float_scope.

Lemma fold_add_nonneg_or_nan (a : list float) (acc : float) :
  (forall x, x ∈ a -> sf_nonneg_or_nan (Prim2SF x)) ->
  sf_nonneg_or_nan (Prim2SF acc) ->
  sf_nonneg_or_nan (Prim2SF (fold_left PrimFloat.add a acc)).
Proof.
  revert acc. induction a as [|v a IH]; intros acc Ha Hacc; simpl; [exact Hacc|].
  apply IH.
  - intros x Hx. apply Ha. right. exact Hx.
  - rewrite add_spec. apply SFadd_nonneg_or_nan; [exact Hacc|].
    apply Ha. left.
Qed.

Lemma mean_nonneg_or_nan (a : list float) :
  (Z.of_nat (length a) < 2 ^ 63)%Z ->
  (forall x, x ∈ a -> sf_nonneg_or_nan (Prim2SF x)) ->
  sf_nonneg_or_nan (Prim2SF (np.mean a)).
Proof.
  intros Hb Ha. unfold np.mean, np.sum. rewrite div_spec.
  apply SFdiv_nonneg_or_nan; [|apply float_of_size_shape, Hb].
  apply fold_add_nonneg_or_nan; [exact Ha|exact I].
Qed.

Lemma fold_ssd_nonneg_or_nan (a : list float) (m acc : float) :
  sf_nonneg_or_nan (Prim2SF acc) ->
  sf_nonneg_or_nan
    (Prim2SF (fold_left (fun ssd v => let val := v - m in ssd + val * val) a acc)).
Proof.
  revert acc. induction a as [|v a IH]; intros acc Hacc; simpl; [exact Hacc|].
  apply IH. rewrite add_spec, mul_spec.
  apply SFadd_nonneg_or_nan; [exact Hacc|apply SFmul_self_nonneg_or_nan].
Qed.

Lemma annualized_std_nonneg_or_nan (a : list float) :
  (Z.of_nat (length a) < 2 ^ 63)%Z ->
  sf_nonneg_or_nan (Prim2SF (np.std a * np.sqrt365)).
Proof.
  intros Hb. destruct sqrt365_finite as (m & e & Hc).
  rewrite mul_spec, Hc. apply SFmul_nonneg_or_nan_finite.
  unfold np.std, np.var, np.ssd. rewrite sqrt_spec, div_spec.
  apply SFsqrt_nonneg_or_nan, SFdiv_nonneg_or_nan;
    [|apply float_of_size_shape, Hb].
  apply fold_ssd_nonneg_or_nan. exact I.
Qed.

End NonNegativeStatistics.

Lemma slice_length_le {A} (a : list A) (s e : Z) :
  (length (np.slice a s e) <= length a)%nat.
Proof. unfold np.slice. rewrite length_take, length_drop. lia. Qed.

Lemma annualized_volatility_at_nonneg_or_nan (returns : list float) (w : Z) (i : nat) :
  Z.of_nat (length returns) < 2 ^ 63 ->
  sf_nonneg_or_nan (Prim2SF (annualized_volatility_at returns w i)).
Proof.
  intros Hb. unfold annualized_volatility_at.
  destruct (Z.of_nat i <? w - 1); [exact I|].
  apply annualized_std_nonneg_or_nan.
  pose proof (slice_length_le returns (Z.of_nat i - w + 1) (Z.of_nat i + 1)).
  unfold window_at. lia.
Qed.

Lemma defined_entries_elem (a : list float) (x : float) :
  x ∈ defined_entries a -> x ∈ a.
Proof.
  intros H. apply list_elem_of_In in H. unfold defined_entries in H.
  apply filter_In in H as [H _]. apply list_elem_of_In, H.
Qed.

Lemma defined_entries_length (a : list float) :
  (length (defined_entries a) <= length a)%nat.
Proof. unfold defined_entries. apply List.filter_length_le. Qed.

(** X12.  The annualized volatility is never negative, and neither is
    the threshold of a run: at every position [v < 0] is false (the
    value is NaN, zero, positive or plus infinity). *)
Theorem volatility_is_never_negative (returns : list float) (w : Z) :
  0 < w -> Z.of_nat (length returns) < 2 ^ 63 ->
  (forall i v, annualized_volatility_nb returns w !! i = Some v -> F64.lt v 0 = false) /\
  F64.lt (np.nanmean (annualized_volatility_nb returns w)) 0 = false.
Proof.
  intros _ Hb.
  assert (Hall : forall x, x ∈ annualized_volatility_nb returns w ->
                           sf_nonneg_or_nan (Prim2SF x)).
  { intros x Hx. apply list_elem_of_lookup in Hx as [i Hi].
    assert (Hlt : (i < length returns)%nat).
    { apply lookup_lt_Some in Hi.
      rewrite annualized_volatility_nb_length in Hi. exact Hi. }
    rewrite annualized_volatility_nb_lookup in Hi by exact Hlt.
    injection Hi as <-. apply annualized_volatility_at_nonneg_or_nan, Hb. }
  split.
  - intros i v Hv. apply nonneg_or_nan_not_negative, Hall.
    apply list_elem_of_lookup. eauto.
  - apply nonneg_or_nan_not_negative. rewrite nanmean_defined.
    apply mean_nonneg_or_nan.
    + pose proof (defined_entries_length (annualized_volatility_nb returns w)).
      rewrite annualized_volatility_nb_length in H. lia.
    + intros x Hx. apply Hall, defined_entries_elem, Hx.
Qed.

Lemma volatility_is_never_negative_witness :
  (forall i v,
     annualized_volatility_nb (pd.pct_change eight_bars) 3 !! i = Some v ->
     F64.lt v 0 = false) /\
  F64.lt (np.nanmean (annualized_volatility_nb (pd.pct_change eight_bars) 3)) 0 = false.
Proof.
  apply (volatility_is_never_negative (pd.pct_change eight_bars) 3);
    [lia | vm_compute; reflexivity].
Defined.

(** ** Infinite values in a window *)

Section InfiniteValues.
Variables prec emax : Z.

Lemma SFadd_inf_r (x : spec_float) (s : bool) :
  sf_inf_or_nan s (SFadd prec emax x (S754_infinity s)).
Proof.
  unfold sf_inf_or_nan.
  destruct x as [sx|sx| |sx mx ex]; simpl; auto. destruct sx, s; auto.
Qed.

Lemma SFadd_inf_l (x y : spec_float) (s : bool) :
  sf_inf_or_nan s x -> sf_inf_or_nan s (SFadd prec emax x y).
Proof.
  unfold sf_inf_or_nan. intros [-> | ->]; [left; reflexivity|].
  destruct y as [sy|sy| |sy my ey]; simpl; auto. destruct s, sy; auto.
Qed.

Lemma SFdiv_inf_l (x y : spec_float) (s : bool) :
  sf_inf_or_nan s x ->
  y = S754_zero false \/ (exists m e, y = S754_finite false m e) ->
  sf_inf_or_nan s (SFdiv prec emax x y).
Proof.
  unfold sf_inf_or_nan. intros [-> | ->] [-> | (m & e & ->)]; simpl; auto;
    right; destruct s; reflexivity.
Qed.

Lemma SFsub_inf_same (m : spec_float) (s : bool) :
  sf_inf_or_nan s m -> SFsub prec emax (S754_infinity s) m = S754_nan.
Proof. intros [-> | ->]; [reflexivity|destruct s; reflexivity]. Qed.

Lemma SFdiv_special_l (x y : spec_float) :
  sf_special x -> sf_special (SFdiv prec emax x y).
Proof.
  destruct x as [sx|sx| |sx mx ex]; simpl; try contradiction; intros _;
    [destruct y; exact I|exact I].
Qed.

Lemma SFsub_special_finite (x : spec_float) (sy : bool) (my : positive) (ey : Z) :
  sf_special x -> sf_special (SFsub prec emax x (S754_finite sy my ey)).
Proof. destruct x; simpl; try contradiction; intros _; exact I. Qed.

End InfiniteValues.

Lemma not_finite_spec (x : float) : F64.finite x = false <-> sf_special (Prim2SF x).
Proof.
  split.
  - intros H. destruct (Prim2SF x) as [s|s| |s m e] eqn:E; try exact I.
    + assert (Hf : F64.finite x = true); [|congruence].
      unfold F64.finite, PrimFloat.is_finite, PrimFloat.is_infinity, PrimFloat.is_nan.
      rewrite !FloatAxioms.eqb_spec, abs_spec, E. reflexivity.
    + assert (Hf : F64.finite x = true); [|congruence].
      unfold F64.finite, PrimFloat.is_finite, PrimFloat.is_infinity, PrimFloat.is_nan.
      rewrite !FloatAxioms.eqb_spec, abs_spec, E.
      change (Prim2SF infinity) with (S754_infinity false).
      unfold SFeqb. rewrite SFcompare_refl_not_nan by discriminate. reflexivity.
  - intros H. destruct (F64.finite x) eqn:E; [|reflexivity].
    apply finite_spec in E. destruct (Prim2SF x); simpl in *; contradiction.
Qed.

Section InfiniteWindows.
Local Open Scope float_scope.

Lemma fold_add_inf_or_nan (a : list float) (acc : float) (s : bool) :
  sf_inf_or_nan s (Prim2SF acc) ->
  sf_inf_or_nan s (Prim2SF (fold_left PrimFloat.add a acc)).
Proof.
  revert acc. induction a as [|v a IH]; intros acc H; simpl; [exact H|].
  apply IH. rewrite add_spec. apply SFadd_inf_l, H.
Qed.

Lemma fold_add_inf_elem (a : list float) (acc x : float) (s : bool) :
  x ∈ a -> Prim2SF x = S754_infinity s ->
  sf_inf_or_nan s (Prim2SF (fold_left PrimFloat.add a acc)).
Proof.
  intros Hin Hx. revert acc. induction Hin as [x a|x v a Hin IH]; intros acc; simpl.
  - apply fold_add_inf_or_nan. rewrite add_spec, Hx. apply SFadd_inf_r.
  - apply IH, Hx.
Qed.

Lemma fold_ssd_nan_elem (a : list float) (m acc x : float) :
  x ∈ a -> F64.isnan (x - m) = true ->
  F64.isnan (fold_left (fun ssd v => let val := v - m in ssd + val * val) a acc) = true.
Proof.
  intros Hin Hx. revert acc. induction Hin as [x a|x v a Hin IH]; intros acc; simpl.
  - apply fold_ssd_nan, add_nan_r, mul_nan_l, Hx.
  - apply IH, Hx.
Qed.

Lemma std_infinite (a : list float) (x : float) (s : bool) :
  (Z.of_nat (length a) < 2 ^ 63)%Z ->
  x ∈ a -> Prim2SF x = S754_infinity s -> F64.isnan (np.std a) = true.
Proof.
  intros Hb Hin Hx. unfold np.std, np.var, np.ssd.
  apply sqrt_nan, div_nan_l, (fold_ssd_nan_elem a _ _ x Hin).
  apply isnan_spec. rewrite sub_spec, Hx. apply SFsub_inf_same.
  unfold np.mean, np.sum. rewrite div_spec.
  apply SFdiv_inf_l; [|apply float_of_size_shape, Hb].
  eapply fold_add_inf_elem; eauto.
Qed.

Lemma std_special (a : list float) (x : float) :
  (Z.of_nat (length a) < 2 ^ 63)%Z ->
  x ∈ a -> sf_special (Prim2SF x) -> F64.isnan (np.std a) = true.
Proof.
  intros Hb Hin Hx. destruct (Prim2SF x) as [s|s| |s m e] eqn:E;
    simpl in Hx; try contradiction.
  - eapply std_infinite; eauto.
  - eapply std_nan; [exact Hin|]. apply isnan_spec, E.
Qed.

End InfiniteWindows.

Lemma forallb_false_elem {A} (f : A -> bool) (a : list A) :
  forallb f a = false -> exists x, x ∈ a /\ f x = false.
Proof.
  induction a as [|v a IH]; simpl; [discriminate|].
  intros H. apply andb_false_iff in H as [H|H].
  - exists v. split; [left|exact H].
  - destruct (IH H) as (x & Hin & Hx). exists x. split; [right; exact Hin|exact Hx].
Qed.

(** X13.  From position [w - 1] on, the annualized volatility is
    defined exactly when the [w] returns of its trailing window are all
    finite: a NaN or an infinite return makes it NaN. *)
Theorem volatility_defined_iff_window_finite
    (returns : list float) (w : Z) (i : nat) :
  1 <= w -> w - 1 <= Z.of_nat i -> (i < length returns)%nat ->
  Z.of_nat (length returns) < 2 ^ 63 ->
  exists v,
    annualized_volatility_nb returns w !! i = Some v /\
    (F64.isnan v = false
     <-> forallb F64.finite
           (np.slice returns (Z.of_nat i - w + 1) (Z.of_nat i + 1)) = true).
Proof.
  intros Hw Hi Hlen Hb. eexists.
  split; [apply annualized_volatility_nb_lookup, Hlen|].
  split.
  - intros Hv.
    destruct (forallb F64.finite _) eqn:E; [reflexivity|].
    apply forallb_false_elem in E as (x & Hin & Hx).
    apply not_finite_spec in Hx.
    unfold annualized_volatility_at in Hv.
    destruct (Z.ltb_spec (Z.of_nat i) (w - 1)); [lia|].
    rewrite mul_nan_l in Hv; [discriminate Hv|].
    apply (std_special _ x); [|exact Hin|exact Hx].
    pose proof (slice_length_le returns (Z.of_nat i - w + 1) (Z.of_nat i + 1)).
    unfold window_at. lia.
  - apply annualized_volatility_at_defined; assumption.
Qed.

Lemma volatility_defined_iff_window_finite_witness :
  exists v,
    annualized_volatility_nb [nan; 1; infinity; 0.5; 0.25]%float 2 !! 3%nat = Some v /\
    (F64.isnan v = false
     <-> forallb F64.finite
           (np.slice [nan; 1; infinity; 0.5; 0.25]%float
                     (Z.of_nat 3 - 2 + 1) (Z.of_nat 3 + 1)) = true).
Proof.
  apply (volatility_defined_iff_window_finite [nan; 1; infinity; 0.5; 0.25]%float 2 3);
    [lia | simpl; lia | simpl; lia | vm_compute; reflexivity].
Defined.

(** ** A forecast from a price that is not finite *)

Lemma pct_change_lookup_infinite (xs : list float) (i : nat) (b : float) (s : bool) :
  xs !! S i = Some b -> Prim2SF b = S754_infinity s ->
  exists x, pd.pct_change xs !! S i = Some x /\ sf_special (Prim2SF x).
Proof.
  intros Hb Hs.
  assert (Hnb : F64.isnan b = false) by (apply isnan_false_spec; congruence).
  assert (Hlt : (S i < length xs)%nat) by (eapply lookup_lt_Some; eauto).
  destruct (lookup_lt_is_Some_2 (pd.ffill_from nan xs) i) as [y Hy].
  { rewrite ffill_from_length. lia. }
  exists (b / y - 1)%float. split.
  - unfold pd.pct_change, pd.ffill. rewrite lookup_zip_with.
    rewrite (ffill_from_lookup xs nan (S i) b Hb Hnb). simpl.
    rewrite shift1_lookup_succ by (rewrite ffill_from_length; exact Hlt).
    rewrite Hy. reflexivity.
  - rewrite sub_spec, div_spec, Hs.
    change (Prim2SF 1) with (S754_finite false 4503599627370496 (-52)).
    apply SFsub_special_finite, SFdiv_special_l. exact I.
Qed.

(** X11.  When the hypothetical price [p * (1 + h)] is not a finite
    number (in particular when the last price [p] or the hypothetical
    return [h] is NaN) the forecast is Unknown: a NaN price makes the
    short moving average NaN, an infinite price makes the last return
    infinite and the short volatility NaN. *)
Theorem forecast_of_non_finite_price_is_unknown (df : DataFrame) (h p : float) :
  last (Close df) = Some p ->
  F64.isnan p = true \/ F64.isnan h = true
  \/ F64.finite (p * (1 + h))%float = false ->
  forecast_next_regime df h = Ok (-1).
Proof.
  intros Hp Hcase.
  assert (Hsp : sf_special (Prim2SF (p * (1 + h))%float)).
  { destruct Hcase as [H|[H|H]].
    - apply not_finite_spec. pose proof (mul_nan_l p (1 + h)%float H) as Hn.
      destruct (F64.finite _) eqn:E; [|reflexivity].
      apply finite_not_nan in E. congruence.
    - apply not_finite_spec.
      pose proof (mul_nan_r p (1 + h)%float (add_nan_r 1%float h H)) as Hn.
      destruct (F64.finite _) eqn:E; [|reflexivity].
      apply finite_not_nan in E. congruence.
    - apply not_finite_spec, H. }
  destruct (Prim2SF (p * (1 + h))%float) as [s|s| |s m e] eqn:E;
    simpl in Hsp; try contradiction.
  2: { apply (forecast_of_nan_is_unknown df h p Hp). apply isnan_spec, E. }
  assert (Hpos : (0 < length (Close df))%nat).
  { destruct (Close df); [discriminate Hp|simpl; lia]. }
  destruct (le_lt_dec 87 (length (Close df))) as [Hge|Hlt];
    [|apply short_history_forecast_unknown; lia].
  rewrite (forecast_next_regime_label df h p Hp). f_equal.
  set (ext := Close df ++ [(p * (1 + h))%float]).
  assert (Hlen : length ext = S (length (Close df))).
  { unfold ext. rewrite length_app. simpl. lia. }
  assert (Hlast : ext !! S (length (Close df) - 1) = Some (p * (1 + h))%float).
  { unfold ext. rewrite lookup_app_r by lia.
    replace (S (length (Close df) - 1) - length (Close df))%nat with 0%nat by lia.
    reflexivity. }
  destruct (pct_change_lookup_infinite ext _ _ s Hlast E) as (x & Hx & Hxs).
  replace (S (length (Close df) - 1)) with (length (Close df)) in Hx by lia.
  assert (Hvol : F64.isnan (annualized_volatility_at (pd.pct_change ext) 21
                              (length (Close df))) = true).
  { unfold annualized_volatility_at.
    destruct (Z.ltb_spec (Z.of_nat (length (Close df))) (21 - 1)); [reflexivity|].
    apply mul_nan_l, (std_special _ x); [| |exact Hxs].
    - rewrite window_at_length; rewrite ?pct_change_length; lia.
    - apply (window_at_elem _ 21 _ (length (Close df)));
        rewrite ?pct_change_length; try lia. exact Hx. }
  unfold pipeline_label, regime_label. rewrite Hvol, !orb_true_r. reflexivity.
Qed.

Lemma forecast_of_non_finite_price_is_unknown_witness :
  forecast_next_regime {| Close := ramp; Return := [] |} infinity = Ok (-1).
Proof.
  apply (forecast_of_non_finite_price_is_unknown
           {| Close := ramp; Return := [] |} infinity 499%float);
    [vm_compute; reflexivity | right; right; vm_compute; reflexivity].
Defined.

(** ** Bad values in the history *)

Lemma SFdiv_by_zero_special (prec emax : Z) (x : spec_float) (s : bool) :
  sf_special (SFdiv prec emax x (S754_zero s)).
Proof. destruct x; exact I. Qed.

(** The return after a zero price is infinite or NaN. *)
Lemma pct_change_after_zero (xs : list float) (j : nat) (z : float) (s : bool) :
  xs !! j = Some z -> Prim2SF z = S754_zero s -> (S j < length xs)%nat ->
  exists x, pd.pct_change xs !! S j = Some x /\ F64.finite x = false.
Proof.
  intros Hz Hs Hlt.
  assert (Hnz : F64.isnan z = false) by (apply isnan_false_spec; congruence).
  destruct (lookup_lt_is_Some_2 (pd.ffill_from nan xs) (S j)) as [b Hb].
  { rewrite ffill_from_length. exact Hlt. }
  exists (b / z - 1)%float. split.
  - unfold pd.pct_change, pd.ffill. rewrite lookup_zip_with, Hb. simpl.
    rewrite shift1_lookup_succ by (rewrite ffill_from_length; exact Hlt).
    rewrite (ffill_from_lookup xs nan j z Hz Hnz). reflexivity.
  - apply not_finite_spec. rewrite sub_spec, div_spec, Hs.
    change (Prim2SF 1) with (S754_finite false 4503599627370496 (-52)).
    apply SFsub_special_finite, SFdiv_by_zero_special.
Qed.

Lemma pipeline_label_bad_return
    (price returns : list float) (w1 w2 w3 w4 : Z) (k i : nat) (x : float) :
  length returns = length price -> 0 < w3 < 2 ^ 63 ->
  returns !! k = Some x -> F64.finite x = false ->
  (k <= i)%nat -> Z.of_nat i < Z.of_nat k + w3 -> (i < length price)%nat ->
  pipeline_label price returns w1 w2 w3 w4 i = -1.
Proof.
  intros Hlen Hw Hx Hfx Hki Hik Hi.
  apply regime_label_unknown_iff. unfold all_defined.
  apply negb_false_iff.
  assert (Hv : F64.isnan (annualized_volatility_at returns w3 i) = true).
  { unfold annualized_volatility_at.
    destruct (Z.ltb_spec (Z.of_nat i) (w3 - 1)); [reflexivity|].
    apply mul_nan_l, (std_special _ x).
    - rewrite window_at_length by lia. lia.
    - apply (window_at_elem returns w3 i k); try lia. exact Hx.
    - apply not_finite_spec, Hfx. }
  rewrite Hv. apply orb_true_r.
Qed.

(** X14.  A return that is NaN or infinite at position [k] makes the
    [vol_short_window] labels from [k] on Unknown: every trailing window
    that holds it has a NaN volatility. *)
Theorem bad_return_blanks_the_volatility_window
    (price returns : list float) (w1 w2 w3 w4 : Z) (k i : nat) (x : float) :
  length returns = length price ->
  0 < w1 -> 0 < w2 -> 0 < w3 < 2 ^ 63 -> 0 < w4 ->
  returns !! k = Some x -> F64.finite x = false ->
  (k <= i)%nat -> Z.of_nat i < Z.of_nat k + w3 -> (i < length price)%nat ->
  exists regimes,
    calculate_regimes_nb price returns w1 w2 w3 w4 = Ok regimes /\
    regimes !! i = Some (-1).
Proof.
  intros Hlen _ _ Hw _ Hx Hfx Hki Hik Hi.
  eexists. split; [apply calculate_regimes_nb_tabulate, Hlen|].
  rewrite tabulate_lookup by exact Hi. f_equal.
  eapply pipeline_label_bad_return; eassumption.
Qed.

Lemma bad_return_blanks_the_volatility_window_witness :
  exists regimes,
    calculate_regimes_nb eight_bars [nan; 1; 0.5; infinity; 0.25; 0.2; 0.1; 0.1]%float
                         1 2 3 4 = Ok regimes /\
    regimes !! 5%nat = Some (-1).
Proof.
  apply (bad_return_blanks_the_volatility_window
           eight_bars [nan; 1; 0.5; infinity; 0.25; 0.2; 0.1; 0.1]%float
           1 2 3 4 3 5 infinity);
    try reflexivity; try lia. simpl. lia.
Defined.

(** X15.  A zero price among the downloaded prices makes the return of
    the next bar infinite or NaN, and the labels of the 21 bars after
    the zero Unknown. *)
Theorem zero_price_blanks_21_labels
    (close : list float) (j i : nat) (z : float) :
  close !! j = Some z -> PrimFloat.eqb z 0 = true ->
  (j < i <= j + 21)%nat -> (i < length close)%nat ->
  exists regimes,
    fetch_and_process_data_body close = Ok regimes /\
    regimes !! i = Some (-1).
Proof.
  intros Hz Hzero Hji Hi.
  assert (Hs : exists s, Prim2SF z = S754_zero s).
  { rewrite FloatAxioms.eqb_spec in Hzero.
    change (Prim2SF 0) with (S754_zero false) in Hzero.
    destruct (Prim2SF z) as [s|[]| |[] m e]; try discriminate Hzero; eauto. }
  destruct Hs as [s Hs].
  destruct (pct_change_after_zero close j z s Hz Hs ltac:(lia)) as (x & Hx & Hfx).
  unfold fetch_and_process_data_body, RegimeIndicator_run. cbn [Close Return].
  eexists. split; [apply calculate_regimes_nb_tabulate, pct_change_length|].
  rewrite tabulate_lookup by exact Hi. f_equal.
  apply (pipeline_label_bad_return close (pd.pct_change close) 21 88 21 365 (S j) i x);
    try assumption; try lia. apply pct_change_length.
Qed.

Lemma zero_price_blanks_21_labels_witness :
  exists regimes,
    fetch_and_process_data_body (<[200%nat := 0%float]> ramp) = Ok regimes /\
    regimes !! 215%nat = Some (-1).
Proof.
  apply (zero_price_blanks_21_labels (<[200%nat := 0%float]> ramp) 200 215 0%float);
    [reflexivity | reflexivity | lia | vm_compute; lia].
Defined.

(** X16.  A NaN price at position [j] makes the labels from [j] up to
    [j + max(ma_short_window, ma_long_window) - 1] Unknown: every moving
    average whose window holds it is NaN. *)
Theorem nan_price_blanks_the_average_windows
    (price returns : list float) (w1 w2 w3 w4 : Z) (j i : nat) (p : float) :
  length returns = length price ->
  0 < w1 -> 0 < w2 -> 0 < w3 -> 0 < w4 ->
  price !! j = Some p -> F64.isnan p = true ->
  (j <= i)%nat -> Z.of_nat i < Z.of_nat j + Z.max w1 w2 -> (i < length price)%nat ->
  exists regimes,
    calculate_regimes_nb price returns w1 w2 w3 w4 = Ok regimes /\
    regimes !! i = Some (-1).
Proof.
  intros Hlen H1 H2 _ _ Hp Hn Hji Hij Hi.
  eexists. split; [apply calculate_regimes_nb_tabulate, Hlen|].
  rewrite tabulate_lookup by exact Hi. f_equal.
  apply regime_label_unknown_iff. unfold all_defined. apply negb_false_iff.
  destruct (Z_lt_le_dec (Z.of_nat i) (Z.of_nat j + w1)) as [Ha|Ha].
  - rewrite (rolling_mean_at_nan price w1 i j p) by (try assumption; lia).
    reflexivity.
  - rewrite (rolling_mean_at_nan price w2 i j p) by (try assumption; lia).
    rewrite orb_true_r. reflexivity.
Qed.

Lemma nan_price_blanks_the_average_windows_witness :
  exists regimes,
    calculate_regimes_nb [1; 2; nan; 4; 5; 6; 7; 8]%float
                         (pd.pct_change [1; 2; nan; 4; 5; 6; 7; 8]%float)
                         1 3 1 4 = Ok regimes /\
    regimes !! 4%nat = Some (-1).
Proof.
  apply (nan_price_blanks_the_average_windows
           [1; 2; nan; 4; 5; 6; 7; 8]%float
           (pd.pct_change [1; 2; nan; 4; 5; 6; 7; 8]%float) 1 3 1 4 2 4 nan);
    try reflexivity; try lia. simpl. lia.
Defined.

(** The forecast is the historical computation run one bar
    further: for a frame whose last price is [p] it returns the last
    label that the per-ticker computation gives to the prices extended
    by [p * (1 + h)], with the same windows and the same returns. *)
Theorem forecast_is_the_history_extended (df : DataFrame) (h p : float) :
  last (Close df) = Some p ->
  forecast_next_regime df h
  = (let* regimes :=
       fetch_and_process_data_body (Close df ++ [(p * (1 + h))%float]) in
     pd.iloc_last regimes).
Proof.
  intros Hp. unfold forecast_next_regime, fetch_and_process_data_body.
  unfold pd.iloc_last at 1. rewrite Hp. reflexivity.
Qed.

Lemma forecast_is_the_history_extended_witness :
  forecast_next_regime one_bar_frame 0.1
  = (let* regimes :=
       fetch_and_process_data_body (Close one_bar_frame ++ [(3 * (1 + 0.1))%float]) in
     pd.iloc_last regimes).
Proof.
  apply (forecast_is_the_history_extended one_bar_frame 0.1%float 3%float).
  reflexivity.
Defined.
